(** * tiny-pop3-server: the mailbox store and the protocol trace

    A shallow embedding of [tiny-pop3-server.py]: the [Message] and
    [Mailbox] classes, the [SimpleRealm] that hands the mailbox to a
    login, the module-level protocol log and the [POP3Server] overrides
    that feed it.  Python objects that the program mutates live in an
    explicit [World]; every method is a computation that threads the
    world and either returns a value or raises.

    The program is Python 3 (f-strings, [tkinter], [line.decode()]);
    the library functions it calls keep their Python 3 behaviour. *)

From Stdlib.Strings Require Import Ascii String Byte.
From Stdlib Require Import ZArith Lia.
From Stdlib Require DecimalString DecimalZ.
From stdpp Require Import base option list.

Local Open Scope Z_scope.

(** ** Python values *)

(** A Python [str] is a sequence of code points, a [bytes] a sequence of
    octets. *)
Definition pystr : Type := list N.
Definition bytes : Type := list byte.

(** A string literal of the source, as a [pystr]. *)
Definition str_lit (s : string) : pystr :=
  List.map N_of_ascii (list_ascii_of_string s).

(** The values a [Message] field can hold: [None] (the constructor's
    default), a [str] (what the GUI stores: an f-string, or the text read
    from a file opened in text mode) or a [bytes]. *)
Inductive PyObj : Type :=
  | PyNone
  | PyStr (s : pystr)
  | PyBytes (b : bytes).

(** The exceptions the modelled code can raise. *)
Inductive Exn : Type :=
  | ValueError
  | IndexError
  | TypeError
  | AttributeError
  | UnicodeDecodeError
  | NotImplementedError.

Inductive Outcome (A : Type) : Type :=
  | Returns (a : A)
  | Raises (e : Exn).
Arguments Returns {A} a.
Arguments Raises {A} e.

Definition raised {A} (o : Outcome A) : Prop :=
  match o with Raises _ => True | Returns _ => False end.

(** ** Computations over a mutable world

    A raise keeps every mutation made before it, as in Python. *)
Module Comp.

Definition M (S A : Type) : Type := S -> Outcome A * S.

Definition ret {S A} (a : A) : M S A := fun s => (Returns a, s).

Definition raise {S A} (e : Exn) : M S A := fun s => (Raises e, s).

Definition bind {S A B} (c : M S A) (k : A -> M S B) : M S B :=
  fun s =>
    match c s with
    | (Returns a, s') => k a s'
    | (Raises e, s') => (Raises e, s')
    end.

Definition gets {S A} (f : S -> A) : M S A := fun s => (Returns (f s), s).

Definition modify {S} (f : S -> S) : M S unit := fun s => (Returns tt, f s).

(** A pure evaluation that may raise. *)
Definition eval {S A} (o : Outcome A) : M S A := fun s => (o, s).

(** A computation on the second component of a pair of states. *)
Definition on_snd {P S A} (c : M S A) : M (P * S) A :=
  fun ps => let '(o, s') := c (snd ps) in (o, (fst ps, s')).

(** [[f(x) for x in l]]: left to right, the first raise ends it. *)
Fixpoint for_each {S A B} (f : A -> M S B) (l : list A) : M S (list B) :=
  match l with
  | [] => ret []
  | x :: l' => bind (f x) (fun y => bind (for_each f l') (fun ys => ret (y :: ys)))
  end.

End Comp.
Import Comp.

Declare Scope comp_scope.
Delimit Scope comp_scope with comp.
Notation "x <- c ;; k" := (bind c (fun x => k))
  (at level 100, c at next level, right associativity) : comp_scope.
Notation "c ;;; k" := (bind c (fun _ => k))
  (at level 100, right associativity) : comp_scope.
Local Open Scope comp_scope.

(** ** Python sequences *)

(** [len(o)]. *)
Definition py_len (o : PyObj) : Outcome nat :=
  match o with
  | PyNone => Raises TypeError
  | PyStr s => Returns (length s)
  | PyBytes b => Returns (length b)
  end.

(** The position [l[i]] denotes in a list of [n] items: a negative index
    counts from the end, anything else is out of range. *)
Definition position (n : nat) (i : Z) : option nat :=
  if bool_decide (0 <= i < Z.of_nat n) then Some (Z.to_nat i)
  else if bool_decide (- Z.of_nat n <= i < 0) then Some (Z.to_nat (Z.of_nat n + i))
  else None.

(** [l[i]]. *)
Definition getitem {A} (l : list A) (i : Z) : Outcome A :=
  match position (length l) i with
  | Some k => match l !! k with Some x => Returns x | None => Raises IndexError end
  | None => Raises IndexError
  end.

(** ** class Message *)

Record Message : Type := mkMessage {
  _content : PyObj;
  _label : PyObj;
  _deleted : bool
}.

(** [Message(content, label)]. *)
Definition Message_init (content label : PyObj) : Message :=
  {| _content := content; _label := label; _deleted := false |}.

Definition content (self : Message) : PyObj := _content self.

Definition deleted (self : Message) : bool := _deleted self.

Definition delete (self : Message) : Message :=
  {| _content := _content self; _label := _label self; _deleted := true |}.

Definition undelete (self : Message) : Message :=
  {| _content := _content self; _label := _label self; _deleted := false |}.

(** ** Module globals *)

Inductive Event : Type :=
  | EVENT_MAILBOXCHANGE
  | EVENT_MESSAGELOGCHANGE.

(** [root] is [None] until [__main__] binds it to the Tk instance, whose
    event queue is all the model keeps of it; [messagelog] is the protocol
    log; [mailbox] is the one [Mailbox] that [__main__] creates, held by
    its [messages] list.  Each slot of the list is a [Message] object of
    its own: the GUI constructs a fresh one for every [addMessage]. *)
Record World : Type := mkWorld {
  root : option (list Event);
  messagelog : list pystr;
  messages : list Message
}.

Definition set_root (q : list Event) (w : World) : World :=
  {| root := Some q; messagelog := messagelog w; messages := messages w |}.

Definition set_messagelog (l : list pystr) (w : World) : World :=
  {| root := root w; messagelog := l; messages := messages w |}.

Definition set_messages (l : list Message) (w : World) : World :=
  {| root := root w; messagelog := messagelog w; messages := l |}.

(** [root.event_generate(event, when='tail')]: the event joins the tail of
    the Tk queue; on the unbound [root] the attribute lookup raises. *)
Definition emit_event (event : Event) : M World unit :=
  r <- gets root;;
  match r with
  | None => raise AttributeError
  | Some q => modify (set_root (q ++ [event]))
  end.

(** ** class Mailbox *)

(** What [listMessages] returns: a list of sizes without an index, one
    size with an index. *)
Inductive Listing : Type :=
  | Sizes (l : list nat)
  | Size (n : nat).

Definition listMessages (index : option Z) : M World Listing :=
  msgs <- gets messages;;
  match index with
  | None =>
      l <- for_each (fun m => eval (py_len (content m))) msgs;;
      ret (Sizes l)
  | Some index =>
      if bool_decide (index >= Z.of_nat (length msgs)) then raise ValueError
      else
        m <- eval (getitem msgs index);;
        n <- eval (py_len (content m));;
        ret (Size n)
  end.

(** The module has [from io import StringIO], so [StringIO] names the
    class and the lookup of its attribute [StringIO] raises; a call
    evaluates its callee before its arguments. *)
Definition StringIO_StringIO : Outcome (PyObj -> Outcome pystr) :=
  Raises AttributeError.

Definition getMessage (index : Z) : M World pystr :=
  msgs <- gets messages;;
  if bool_decide (index >= Z.of_nat (length msgs)) then raise ValueError
  else
    new <- eval StringIO_StringIO;;
    m <- eval (getitem msgs index);;
    eval (new (content m)).

Section Uidl.

(** [hashlib.sha1(b).hexdigest()] on octets: the library's function. *)
Variable sha1_hexdigest : bytes -> pystr.

(** [hashlib.sha1(o).hexdigest()]: the constructor takes a bytes-like
    object and raises on a [str] and on [None]. *)
Definition hashlib_sha1_hexdigest (o : PyObj) : Outcome pystr :=
  match o with
  | PyBytes b => Returns (sha1_hexdigest b)
  | PyStr _ => Raises TypeError
  | PyNone => Raises TypeError
  end.

Definition getUidl (index : Z) : M World pystr :=
  msgs <- gets messages;;
  if bool_decide (index >= Z.of_nat (length msgs)) then raise ValueError
  else
    m <- eval (getitem msgs index);;
    eval (hashlib_sha1_hexdigest (content m)).

End Uidl.

(** [self.messages[index].f()] for a mutator [f] of [Message]: the object
    in the slot changes in place. *)
Definition update_item (f : Message -> Message) (index : Z) : M World unit :=
  msgs <- gets messages;;
  match position (length msgs) index with
  | Some k =>
      match msgs !! k with
      | Some m => modify (set_messages (<[k := f m]> msgs))
      | None => raise IndexError
      end
  | None => raise IndexError
  end.

Definition deleteMessage (index : Z) : M World unit :=
  msgs <- gets messages;;
  if bool_decide (index >= Z.of_nat (length msgs)) then raise ValueError
  else
    update_item delete index;;;
    emit_event EVENT_MAILBOXCHANGE.

Definition undeleteMessages (index : Z) : M World unit :=
  msgs <- gets messages;;
  if bool_decide (index >= Z.of_nat (length msgs)) then raise ValueError
  else
    update_item undelete index;;;
    emit_event EVENT_MAILBOXCHANGE.

(** The loop of [sync]: [keep.append(message)] for every message that is
    not deleted. *)
Definition sync_keep (msgs : list Message) : list Message :=
  fold_left (fun keep message => if negb (deleted message) then keep ++ [message] else keep)
            msgs [].

Definition sync : M World unit :=
  msgs <- gets messages;;
  modify (set_messages (sync_keep msgs));;;
  emit_event EVENT_MAILBOXCHANGE.

Definition addMessage (msg : Message) : M World unit :=
  msgs <- gets messages;;
  modify (set_messages (msgs ++ [msg]));;;
  emit_event EVENT_MAILBOXCHANGE.

(** ** class SimpleRealm *)

Inductive Interface : Type :=
  | IMailbox
  | IRealm
  | OtherInterface (name : string).

Definition is_IMailbox (i : Interface) : bool :=
  match i with IMailbox => true | _ => false end.

(** A reference to the [Mailbox] object bound to the global name
    [mailbox], whose [messages] the world holds. *)
Inductive MailboxRef : Type :=
  | mailbox.

Record SimpleRealm : Type := mkSimpleRealm {
  self_mailbox : MailboxRef
}.

(** What [requestAvatar] returns: the interface, the avatar and the logout
    callable, here [lambda: None]. *)
Definition Avatar : Type := (Interface * MailboxRef * M World unit)%type.

Definition requestAvatar (self : SimpleRealm) (avatarId : bytes) (mind : PyObj)
    (interfaces : list Interface) : M World Avatar :=
  if negb (existsb is_IMailbox interfaces) then raise NotImplementedError
  else ret (IMailbox, mailbox, ret tt).

(** ** The protocol log *)

(** [s.lstrip(chars)], [s.rstrip(chars)], [s.strip(chars)]. *)
Fixpoint lstrip (chars s : pystr) : pystr :=
  match s with
  | [] => []
  | c :: s' => if existsb (N.eqb c) chars then lstrip chars s' else s
  end.

Definition rstrip (chars s : pystr) : pystr := rev (lstrip chars (rev s)).

Definition strip (chars s : pystr) : pystr := rstrip chars (lstrip chars s).

(** The two characters of the literal in [strip("\n\r")]. *)
Definition newline_return : pystr := [10%N; 13%N].

Section Trace.

(** [b.decode()]: the UTF-8 codec of the library, [None] where it raises
    [UnicodeDecodeError]. *)
Variable utf8_decode : bytes -> option pystr.

Definition decode (line : bytes) : Outcome pystr :=
  match utf8_decode line with
  | Some s => Returns s
  | None => Raises UnicodeDecodeError
  end.

(** The argument of [messagelog.append] is evaluated, and may raise,
    before the list is touched. *)
Definition incoming_line (line : bytes) : M World unit :=
  s <- eval (decode line);;
  log <- gets messagelog;;
  modify (set_messagelog (log ++ [str_lit "C: " ++ strip newline_return s]));;;
  emit_event EVENT_MESSAGELOGCHANGE.

Definition outgoing_line (line : bytes) : M World unit :=
  s <- eval (decode line);;
  log <- gets messagelog;;
  modify (set_messagelog (log ++ [str_lit "S: " ++ strip newline_return s]));;;
  emit_event EVENT_MESSAGELOGCHANGE.

(** ** class POP3Server

    The base class [twisted.mail.pop3.POP3] is the library's: [Protocol]
    is what an instance keeps (session state, transport), and its three
    overridden methods act on it and on the world. *)

Variable Protocol : Type.

(** [twisted.mail.pop3.successResponse(message)], the formatted line. *)
Variable pop3_successResponse : PyObj -> bytes.

(** [twisted.mail.pop3.POP3.successResponse], [.lineReceived], [.sendLine]. *)
Variable POP3_successResponse : PyObj -> M (Protocol * World) unit.
Variable POP3_lineReceived : bytes -> M (Protocol * World) unit.
Variable POP3_sendLine : bytes -> M (Protocol * World) unit.

Definition successResponse (message : PyObj) : M (Protocol * World) unit :=
  on_snd (outgoing_line (pop3_successResponse message));;;
  POP3_successResponse message.

Definition lineReceived (line : bytes) : M (Protocol * World) unit :=
  on_snd (incoming_line line);;;
  POP3_lineReceived line.

Definition sendLine (line : bytes) : M (Protocol * World) unit :=
  on_snd (outgoing_line line);;;
  POP3_sendLine line.

End Trace.

(** ** Message.label *)

(** The truth value of a field in [if self.__label:]: [None] and the empty
    sequences are false. *)
Definition truth (o : PyObj) : bool :=
  match o with
  | PyNone => false
  | PyStr [] => false
  | PyStr (_ :: _) => true
  | PyBytes [] => false
  | PyBytes (_ :: _) => true
  end.

(** The truth value of what [label] holds, [None] or a [str]. *)
Definition truth_label (l : option pystr) : bool :=
  match l with
  | None => false
  | Some [] => false
  | Some (_ :: _) => true
  end.

(** [a + o] for a [str] [a]: only a [str] can be added to it. *)
Definition str_add (a : pystr) (o : PyObj) : Outcome pystr :=
  match o with
  | PyStr s => Returns (a ++ s)
  | PyBytes _ => Raises TypeError
  | PyNone => Raises TypeError
  end.

(** [Message.label()]: the local [label] is [None] or a [str]. *)
Definition label (self : Message) : Outcome (option pystr) :=
  match
    (if truth (_label self)
     then match str_add [] (_label self) with
          | Returns l => Returns (Some l)
          | Raises e => Raises e
          end
     else Returns None)
  with
  | Raises e => Raises e
  | Returns label =>
      if deleted self && truth_label label
      then match label with
           | Some l => Returns (Some (l ++ str_lit " (deleted)"))
           | None => Raises TypeError
           end
      else Returns label
  end.

(** ** class GUI

    Of the Tk widgets the model keeps what the methods write: the rows of
    the message [Listbox] and the characters of the two [Text]s. *)

Record GUI : Type := mkGUI {
  message_generate_count : Z;
  message_list : list pystr;
  messagecontent : pystr;
  message_log_content : pystr
}.

(** The fields as [GUI.__init__] leaves them. *)
Definition GUI_init : GUI :=
  {| message_generate_count := 0; message_list := [];
     messagecontent := []; message_log_content := [] |}.

Definition set_message_generate_count (n : Z) (g : GUI) : GUI :=
  {| message_generate_count := n; message_list := message_list g;
     messagecontent := messagecontent g;
     message_log_content := message_log_content g |}.

Definition set_message_list (rows : list pystr) (g : GUI) : GUI :=
  {| message_generate_count := message_generate_count g; message_list := rows;
     messagecontent := messagecontent g;
     message_log_content := message_log_content g |}.

Definition set_message_log_content (text : pystr) (g : GUI) : GUI :=
  {| message_generate_count := message_generate_count g;
     message_list := message_list g;
     messagecontent := messagecontent g;
     message_log_content := text |}.

(** A change of the GUI object in a state that pairs it with the world. *)
Definition on_gui (f : GUI -> GUI) (s : GUI * World) : GUI * World :=
  (f s.1, s.2).

(** [for x in l: body(x)]. *)
Fixpoint for_in {S A} (body : A -> M S unit) (l : list A) : M S unit :=
  match l with
  | [] => ret tt
  | x :: l' => body x;;; for_in body l'
  end.

(** [range(a, b)]. *)
Definition range (a b : Z) : list Z := seqZ a (b - a).

(** [str(n)] for an [int], as an f-string field prints it. *)
Definition format_int (n : Z) : pystr :=
  str_lit (DecimalString.NilZero.string_of_int (Z.to_int n)).

(** [str(l)] for what [label()] returns. *)
Definition format_label (l : option pystr) : pystr :=
  match l with
  | Some s => s
  | None => str_lit "None"
  end.

(** The f-string of [add_message]. *)
Definition generated_text (n : Z) : pystr :=
  str_lit "Hi there!" ++ [10%N]
  ++ str_lit "Generated message number " ++ format_int n
  ++ str_lit " goes here." ++ [10%N].

Definition add_message : M (GUI * World) unit :=
  n <- gets (fun s => message_generate_count s.1);;
  modify (on_gui (set_message_generate_count (n + 1)));;;
  n <- gets (fun s => message_generate_count s.1);;
  on_snd (addMessage (Message_init (PyStr (generated_text n)) PyNone)).

(** One turn of the loop of [refresh_message_list]: [label()] is called
    for the test and again inside the f-string. *)
Definition refresh_message_list_row (idx : Z) : M (GUI * World) unit :=
  msgs <- gets (fun s => messages s.2);;
  m <- eval (getitem msgs (idx - 1));;
  l <- eval (label m);;
  row <- (if truth_label l
          then
            m' <- eval (getitem msgs (idx - 1));;
            l' <- eval (label m');;
            ret (str_lit "Message " ++ format_int idx ++ str_lit ": "
                 ++ format_label l')
          else ret (str_lit "Message " ++ format_int idx));;
  rows <- gets (fun s => message_list s.1);;
  modify (on_gui (set_message_list (rows ++ [row]))).

Definition refresh_message_list : M (GUI * World) unit :=
  modify (on_gui (set_message_list []));;;
  n <- gets (fun s => length (messages s.2));;
  for_in refresh_message_list_row (range 1 (Z.of_nat n + 1)).

Definition refresh_message_log_content : M (GUI * World) unit :=
  modify (on_gui (set_message_log_content []));;;
  log <- gets (fun s => messagelog s.2);;
  for_in (fun message =>
            text <- gets (fun s => message_log_content s.1);;
            modify (on_gui (set_message_log_content (text ++ message)));;;
            text <- gets (fun s => message_log_content s.1);;
            modify (on_gui (set_message_log_content (text ++ [10%N]))))
         log.

(** The handlers [GUI.__init__] binds to the two events. *)
Definition bound_handler (event : Event) : M (GUI * World) unit :=
  match event with
  | EVENT_MAILBOXCHANGE => refresh_message_list
  | EVENT_MESSAGELOGCHANGE => refresh_message_log_content
  end.

(** ** Sample worlds *)

(** The world while the reactor runs: [root] is bound, its queue and the
    log are empty. *)
Definition running (msgs : list Message) : World :=
  {| root := Some []; messagelog := []; messages := msgs |}.

(** The content of the first message [GUI.add_message] generates. *)
Definition generated_content : pystr :=
  str_lit "Hi there!" ++ [10%N]
  ++ str_lit "Generated message number 1 goes here." ++ [10%N].

Definition generated : Message := Message_init (PyStr generated_content) PyNone.

Definition abc : Message := Message_init (PyStr (str_lit "abc")) PyNone.

Definition hello : Message := Message_init (PyStr (str_lit "hello")) PyNone.

(** The line [NOOP] with its CRLF, as it comes off the wire. *)
Definition noop_line : bytes := [x4e; x4f; x4f; x50; x0d; x0a].

(** ** Vocabulary of the statements *)

(** A message staged for deletion, and one that is not. *)
Definition flagged (m : Message) : Prop := deleted m = true.
Definition unflagged (m : Message) : Prop := deleted m = false.

#[global] Instance flagged_dec m : Decision (flagged m).
Proof. unfold flagged. apply _. Defined.

#[global] Instance unflagged_dec m : Decision (unflagged m).
Proof. unfold unflagged. apply _. Defined.

(** The number a retained message has after [sync], counted from 0: how
    many unflagged messages precede position [j]. *)
Definition renumbered (msgs : list Message) (j : nat) : nat :=
  length (filter unflagged (take j msgs)).

(** A message whose content has a length. *)
Definition sized (m : Message) : Prop := content m <> PyNone.

(** The size [listMessages] reports for a message. *)
Definition size_is (m : Message) (n : nat) : Prop :=
  py_len (content m) = Returns n.

(** The world with every staged deletion withdrawn. *)
Definition unstaged (w : World) : World :=
  set_messages (map undelete (messages w)) w.

(** The world after a line that decodes to [s] went into the log under
    [prefix], with [q] the Tk queue before. *)
Definition logged (prefix : string) (s : pystr) (q : list Event) (w : World) : World :=
  {| root := Some (q ++ [EVENT_MESSAGELOGCHANGE]);
     messagelog := messagelog w ++ [str_lit prefix ++ strip newline_return s];
     messages := messages w |}.

(** A decoder for the samples: octets below 128 stand for themselves,
    as in UTF-8, and any other octet is refused. *)
Fixpoint ascii_decode (b : bytes) : option pystr :=
  match b with
  | [] => Some []
  | x :: b' =>
      if (Byte.to_N x <? 128)%N
      then option_map (cons (Byte.to_N x)) (ascii_decode b')
      else None
  end.

(** The stored contents, slot by slot. *)
Definition contents (w : World) : list PyObj := map content (messages w).

(** The mailbox-changed events of [n] notifications. *)
Definition notified (n : nat) (q : list Event) : list Event :=
  q ++ replicate n EVENT_MAILBOXCHANGE.

(** [k] presses of the button bound to [add_message]. *)
Fixpoint presses (k : nat) : M (GUI * World) unit :=
  match k with
  | O => ret tt
  | S k' => add_message;;; presses k'
  end.

(** The messages the presses number [n + 1] to [n + k] generate. *)
Fixpoint generated_from (n : Z) (k : nat) : list Message :=
  match k with
  | O => []
  | S k' =>
      Message_init (PyStr (generated_text (n + 1))) PyNone
      :: generated_from (n + 1) k'
  end.

(** The row of the listbox for message number [idx] whose [label()] is
    [l]. *)
Definition row_text (idx : Z) (l : option pystr) : pystr :=
  if truth_label l
  then str_lit "Message " ++ format_int idx ++ str_lit ": " ++ format_label l
  else str_lit "Message " ++ format_int idx.

(** The rows for labels [ls], numbered from [idx]. *)
Fixpoint rows_from (idx : Z) (ls : list (option pystr)) : list pystr :=
  match ls with
  | [] => []
  | l :: ls' => row_text idx l :: rows_from (idx + 1) ls'
  end.

(** The text of the log view for a log: every entry and a newline. *)
Definition log_text (log : list pystr) : pystr :=
  concat (map (fun entry => entry ++ [10%N]) log).

(** A character [strip("\n\r")] removes at an end. *)
Definition line_end (c : N) : Prop := c = 10%N \/ c = 13%N.

(** A message whose label is of the wrong type for [label()]: a
    non-empty [bytes]. *)
Definition labelled_by_bytes (m : Message) : Prop :=
  exists x b, _label m = PyBytes (x :: b).

(** Unfolding one method call into its steps. *)
Ltac run :=
  unfold listMessages, getMessage, getUidl, deleteMessage, undeleteMessages,
    sync, addMessage, update_item, emit_event, requestAvatar,
    bind, gets, modify, ret, raise, eval;
  simpl.

(** * Facts *)

(** ** Indexing *)

Lemma position_nonneg n i :
  0 <= i < Z.of_nat n -> position n i = Some (Z.to_nat i).
Proof.
  intros H. unfold position. rewrite bool_decide_eq_true_2; auto.
Qed.

Lemma position_negative n i :
  - Z.of_nat n <= i < 0 -> position n i = Some (Z.to_nat (Z.of_nat n + i)).
Proof.
  intros H. unfold position.
  rewrite bool_decide_eq_false_2 by lia.
  rewrite bool_decide_eq_true_2; auto.
Qed.

Lemma position_below n i : i < - Z.of_nat n -> position n i = None.
Proof.
  intros H. unfold position.
  rewrite !bool_decide_eq_false_2 by lia. reflexivity.
Qed.

Lemma position_lt n i k : position n i = Some k -> (k < n)%nat.
Proof.
  unfold position. intros H.
  repeat case_bool_decide; simplify_eq; lia.
Qed.

Lemma position_wraps n i :
  - Z.of_nat n <= i < 0 -> position n i = position n (i + Z.of_nat n).
Proof.
  intros H. rewrite position_negative by lia.
  rewrite position_nonneg by lia. f_equal. lia.
Qed.

(** ** The loop of sync *)

Lemma sync_keep_from (msgs keep : list Message) :
  fold_left (fun keep message => if negb (deleted message) then keep ++ [message] else keep)
            msgs keep
  = keep ++ filter unflagged msgs.
Proof.
  revert keep. induction msgs as [|m msgs IH]; intros keep; simpl.
  - rewrite filter_nil, app_nil_r. reflexivity.
  - rewrite IH, filter_cons.
    destruct (decide (unflagged m)) as [Hm|Hm]; unfold unflagged in Hm.
    + rewrite Hm. simpl. rewrite <- app_assoc. reflexivity.
    + apply not_false_is_true in Hm. rewrite Hm. reflexivity.
Qed.

Lemma sync_keep_filter msgs : sync_keep msgs = filter unflagged msgs.
Proof. unfold sync_keep. apply sync_keep_from. Qed.

Lemma sync_messages w : messages (sync w).2 = filter unflagged (messages w).
Proof.
  run. destruct (root w); simpl; apply sync_keep_filter.
Qed.

Lemma sync_returns w q :
  root w = Some q ->
  sync w = (Returns tt,
            {| root := Some (q ++ [EVENT_MAILBOXCHANGE]);
               messagelog := messagelog w;
               messages := filter unflagged (messages w) |}).
Proof.
  intros H. run. rewrite H. simpl. unfold set_root, set_messages. simpl.
  rewrite sync_keep_filter. reflexivity.
Qed.

Lemma filter_unflagged_lookup (msgs : list Message) j m :
  msgs !! j = Some m -> unflagged m ->
  filter unflagged msgs !! renumbered msgs j = Some m.
Proof.
  intros Hj Hm. unfold renumbered.
  assert (E : filter unflagged msgs
              = filter unflagged (take j msgs) ++ m :: filter unflagged (drop (S j) msgs)).
  { rewrite <- (take_drop j msgs) at 1.
    rewrite filter_app, (drop_S _ _ _ Hj), filter_cons_True by exact Hm.
    reflexivity. }
  rewrite E, lookup_app_r by lia.
  rewrite Nat.sub_diag. reflexivity.
Qed.

Lemma filter_unflagged_all (msgs : list Message) :
  Forall unflagged msgs -> filter unflagged msgs = msgs.
Proof.
  induction 1 as [|m msgs Hm _ IH]; [reflexivity|].
  rewrite filter_cons_True by exact Hm. rewrite IH. reflexivity.
Qed.

(** C2: [sync] keeps exactly the unflagged messages, each with its
    content and label as they were and in their former order, and the
    retained message of old position [j] gets the number of unflagged
    messages before it, so the new numbers run consecutively from the
    first; with [root] bound the call returns. *)
Theorem sync_removes_exactly_flagged (w : World) :
  messages (sync w).2 = filter unflagged (messages w)
  /\ (forall m, m ∈ messages (sync w).2 <-> m ∈ messages w /\ unflagged m)
  /\ messages (sync w).2 `sublist_of` messages w
  /\ (forall j m, messages w !! j = Some m -> unflagged m ->
        messages (sync w).2 !! renumbered (messages w) j = Some m)
  /\ (forall k m, messages (sync w).2 !! k = Some m ->
        exists j, messages w !! j = Some m /\ unflagged m
                  /\ k = renumbered (messages w) j)
  /\ (forall q, root w = Some q -> (sync w).1 = Returns tt).
Proof.
  rewrite sync_messages.
  split; [reflexivity|]. split; [|split; [|split; [|split]]].
  - intros m. rewrite list_elem_of_filter. tauto.
  - apply sublist_filter.
  - intros j m. apply filter_unflagged_lookup.
  - induction (messages w) as [|x l IH]; intros k m Hk.
    + rewrite filter_nil in Hk. discriminate.
    + rewrite filter_cons in Hk. destruct (decide (unflagged x)) as [Hx|Hx].
      * destruct k as [|k]; simpl in Hk.
        -- simplify_eq. exists 0%nat. repeat split; auto.
        -- destruct (IH k m Hk) as (j & Hj & Hm & ->).
           exists (S j). repeat split; auto.
           unfold renumbered. simpl. rewrite filter_cons_True by exact Hx.
           reflexivity.
      * destruct (IH k m Hk) as (j & Hj & Hm & ->).
        exists (S j). repeat split; auto.
        unfold renumbered. simpl. rewrite filter_cons_False by exact Hx.
        reflexivity.
  - intros q H. rewrite (sync_returns w q H). reflexivity.
Qed.

Lemma sync_removes_exactly_flagged_witness :
  messages (sync (running [delete abc; hello; delete hello; abc])).2
    !! renumbered [delete abc; hello; delete hello; abc] 3
  = Some abc.
Proof.
  apply (proj1 (proj2 (proj2 (proj2
           (sync_removes_exactly_flagged
              (running [delete abc; hello; delete hello; abc])))))
           3%nat abc).
  - reflexivity.
  - reflexivity.
Defined.

(** C9: after [sync] no message left in the mailbox is flagged, and a
    second [sync] leaves the message sequence as the first one made it. *)
Theorem sync_idempotent (w : World) :
  Forall unflagged (messages (sync w).2)
  /\ messages (sync (sync w).2).2 = messages (sync w).2.
Proof.
  assert (H : Forall unflagged (messages (sync w).2)).
  { rewrite sync_messages. apply Forall_forall. intros m Hm.
    apply list_elem_of_filter in Hm. tauto. }
  split; [exact H|].
  rewrite (sync_messages (sync w).2). apply filter_unflagged_all, H.
Qed.

(** ** Undelete *)

Lemma undeleteMessages_other_slots (w : World) (i : Z) (k j : nat) :
  position (length (messages w)) i = Some k -> j <> k ->
  messages (undeleteMessages i w).2 !! j = messages w !! j.
Proof.
  intros Hk Hj. run. case_bool_decide; [reflexivity|].
  rewrite Hk. destruct (messages w !! k) as [m|] eqn:E; simpl; [|reflexivity].
  destruct (root w); simpl; apply list_lookup_insert_ne; auto.
Qed.

(** C1: [undeleteMessages(index)] clears the flag of the one message the
    index stands for: a flagged message in any other slot is the same
    flagged message afterwards, so the mailbox still holds a message
    staged for deletion. *)
Theorem undeleteMessages_clears_one_flag
    (w : World) (i : Z) (k j : nat) (m : Message) :
  position (length (messages w)) i = Some k ->
  j <> k ->
  messages w !! j = Some m ->
  flagged m ->
  messages (undeleteMessages i w).2 !! j = Some m
  /\ Exists flagged (messages (undeleteMessages i w).2).
Proof.
  intros Hk Hj Hm Hf.
  assert (E : messages (undeleteMessages i w).2 !! j = Some m).
  { rewrite (undeleteMessages_other_slots w i k j Hk Hj). exact Hm. }
  split; [exact E|].
  apply Exists_exists. exists m. split; [|exact Hf].
  apply list_elem_of_lookup. exists j. exact E.
Qed.

Lemma undeleteMessages_clears_one_flag_witness :
  undeleteMessages 0 (running [delete abc; delete hello])
  = (Returns tt,
     {| root := Some [EVENT_MAILBOXCHANGE];
        messagelog := [];
        messages := [abc; delete hello] |})
  /\ messages (undeleteMessages 0 (running [delete abc; delete hello])).2 !! 1%nat
     = Some (delete hello)
  /\ Exists flagged (messages (undeleteMessages 0 (running [delete abc; delete hello])).2).
Proof.
  split; [reflexivity|].
  apply (undeleteMessages_clears_one_flag
           (running [delete abc; delete hello]) 0 0%nat 1%nat (delete hello)).
  - reflexivity.
  - discriminate.
  - reflexivity.
  - reflexivity.
Defined.

(** ** Listing *)

Lemma sized_size_is m : sized m -> exists n, size_is m n.
Proof.
  unfold sized, size_is, content. destruct (_content m); simpl; eauto.
  intros H. contradiction.
Qed.

Lemma for_each_len_state (msgs : list Message) (w : World) :
  (for_each (fun m => eval (py_len (content m))) msgs w).2 = w.
Proof.
  induction msgs as [|m msgs IH]; simpl; [reflexivity|].
  unfold bind, eval at 1. destruct (py_len (content m)); [|reflexivity].
  destruct (for_each _ msgs w) as [[l|e] w'] eqn:E; simpl in *; exact IH.
Qed.

Lemma for_each_len_sized (msgs : list Message) (w : World) :
  Forall sized msgs ->
  exists sizes,
    for_each (fun m => eval (py_len (content m))) msgs w = (Returns sizes, w)
    /\ Forall2 size_is msgs sizes.
Proof.
  induction 1 as [|m msgs Hm _ IH]; simpl.
  - exists []. split; [reflexivity|constructor].
  - destruct IH as (sizes & E & HF).
    destruct (sized_size_is m Hm) as [n Hn].
    exists (n :: sizes). unfold bind, eval at 1. rewrite Hn, E.
    split; [reflexivity|]. constructor; assumption.
Qed.

(** C3, on the code: [listMessages()] lists a flagged message like any
    other, so the count is not that of the unflagged messages. *)
Lemma listMessages_counts_flagged :
  ~ (forall (w : World) (sizes : list nat),
       (listMessages None w).1 = Returns (Sizes sizes) ->
       length sizes = length (filter unflagged (messages w))).
Proof.
  intros H.
  specialize (H (running [delete abc; hello]) [3; 5]%nat eq_refl).
  discriminate H.
Qed.

(** C3, amended: [listMessages()] returns one size per stored message,
    flagged or not, in mailbox order, each the length of that message's
    content, and leaves the world as it was. *)
Theorem listMessages_lists_every_message (w : World) :
  Forall sized (messages w) ->
  exists sizes,
    listMessages None w = (Returns (Sizes sizes), w)
    /\ length sizes = length (messages w)
    /\ Forall2 size_is (messages w) sizes.
Proof.
  intros H. destruct (for_each_len_sized (messages w) w H) as (sizes & E & HF).
  exists sizes. split; [|split].
  - unfold listMessages, bind, gets, ret. simpl. rewrite E. reflexivity.
  - symmetry. exact (Forall2_length _ _ _ HF).
  - exact HF.
Qed.

Lemma listMessages_lists_every_message_witness :
  exists sizes,
    listMessages None (running [delete abc; hello])
    = (Returns (Sizes sizes), running [delete abc; hello])
    /\ length sizes = 2%nat
    /\ Forall2 size_is [delete abc; hello] sizes.
Proof.
  apply (listMessages_lists_every_message (running [delete abc; hello])).
  repeat constructor; discriminate.
Defined.

(** ** Operations on one message *)

Lemma getitem_wraps {A} (l : list A) (i : Z) :
  - Z.of_nat (length l) <= i < 0 ->
  getitem l i = getitem l (i + Z.of_nat (length l)).
Proof. intros H. unfold getitem. rewrite (position_wraps _ _ H). reflexivity. Qed.

Lemma getitem_below {A} (l : list A) (i : Z) :
  i < - Z.of_nat (length l) -> getitem l i = Raises IndexError.
Proof. intros H. unfold getitem. rewrite (position_below _ _ H). reflexivity. Qed.

Lemma getitem_Returns {A} (l : list A) (i : Z) (x : A) :
  getitem l i = Returns x ->
  exists k, position (length l) i = Some k /\ l !! k = Some x.
Proof.
  unfold getitem. destruct (position (length l) i) as [k|]; [|discriminate].
  destruct (l !! k) as [y|] eqn:E; [|discriminate].
  intros [= ->]. eauto.
Qed.

Lemma getitem_map {A B} (f : A -> B) (l : list A) (i : Z) :
  getitem (map f l) i
  = match getitem l i with Returns x => Returns (f x) | Raises e => Raises e end.
Proof.
  unfold getitem. rewrite length_map.
  destruct (position (length l) i) as [k|]; [|reflexivity].
  rewrite list_lookup_fmap. destruct (l !! k); reflexivity.
Qed.

Lemma set_messages_same (w : World) : set_messages (messages w) w = w.
Proof. destruct w. reflexivity. Qed.

Lemma delete_flagged (m : Message) : flagged m -> delete m = m.
Proof. destruct m as [c l d]. unfold flagged, deleted, delete. simpl. intros ->. reflexivity. Qed.

(** Past the guard, each operation is its indexing step. *)
Lemma listMessages_in (w : World) (i : Z) :
  i < Z.of_nat (length (messages w)) ->
  listMessages (Some i) w
  = (match getitem (messages w) i with
     | Returns m =>
         match py_len (content m) with
         | Returns n => Returns (Size n)
         | Raises e => Raises e
         end
     | Raises e => Raises e
     end, w).
Proof.
  intros H. run. rewrite bool_decide_eq_false_2 by lia.
  destruct (getitem (messages w) i) as [m|e]; [|reflexivity].
  destruct (py_len (content m)); reflexivity.
Qed.

Lemma getMessage_in (w : World) (i : Z) :
  i < Z.of_nat (length (messages w)) ->
  getMessage i w = (Raises AttributeError, w).
Proof. intros H. run. rewrite bool_decide_eq_false_2 by lia. reflexivity. Qed.

Lemma getUidl_in sha (w : World) (i : Z) :
  i < Z.of_nat (length (messages w)) ->
  getUidl sha i w
  = (match getitem (messages w) i with
     | Returns m => hashlib_sha1_hexdigest sha (content m)
     | Raises e => Raises e
     end, w).
Proof.
  intros H. run. rewrite bool_decide_eq_false_2 by lia.
  destruct (getitem (messages w) i) as [m|e]; reflexivity.
Qed.

Lemma deleteMessage_in (w : World) (i : Z) :
  i < Z.of_nat (length (messages w)) ->
  deleteMessage i w
  = match position (length (messages w)) i with
    | Some k =>
        match messages w !! k with
        | Some m =>
            emit_event EVENT_MAILBOXCHANGE
              (set_messages (<[k := delete m]> (messages w)) w)
        | None => (Raises IndexError, w)
        end
    | None => (Raises IndexError, w)
    end.
Proof.
  intros H. run. rewrite bool_decide_eq_false_2 by lia.
  destruct (position (length (messages w)) i) as [k|]; [|reflexivity].
  destruct (messages w !! k) as [m|]; [|reflexivity].
  simpl. destruct (root w); reflexivity.
Qed.

(** C4, on the code: on a flagged message [listMessages(0)] returns the
    size and [deleteMessage(0)] returns once more. *)
Lemma flagged_target_is_served :
  ~ (forall (w : World) (i : Z) (m : Message),
       i < Z.of_nat (length (messages w)) ->
       getitem (messages w) i = Returns m -> flagged m ->
       raised (listMessages (Some i) w).1 /\ raised (deleteMessage i w).1).
Proof.
  intros H.
  destruct (H (running [delete abc]) 0 (delete abc)) as [H1 _];
    [reflexivity..|].
  exact H1.
Qed.

(** C4, amended: the operations on one message do not look at its flag.
    At an index the code accepts whose message is flagged,
    [listMessages(index)] returns the size of the content, [deleteMessage]
    returns again and leaves the mailbox as it was, and the outcomes of
    [listMessages(index)], [getMessage] and [getUidl] are those of the
    mailbox with no deletion staged. *)
Theorem single_message_operations_ignore_flag
    (sha : bytes -> pystr) (w : World) (i : Z) (m : Message) :
  i < Z.of_nat (length (messages w)) ->
  getitem (messages w) i = Returns m ->
  flagged m ->
  (forall n, size_is m n -> listMessages (Some i) w = (Returns (Size n), w))
  /\ (forall q, root w = Some q ->
        deleteMessage i w = (Returns tt, set_root (q ++ [EVENT_MAILBOXCHANGE]) w))
  /\ (listMessages (Some i) w).1 = (listMessages (Some i) (unstaged w)).1
  /\ (getMessage i w).1 = (getMessage i (unstaged w)).1
  /\ (getUidl sha i w).1 = (getUidl sha i (unstaged w)).1.
Proof.
  intros Hi Hm Hf.
  assert (Hu : i < Z.of_nat (length (messages (unstaged w)))).
  { unfold unstaged. simpl. rewrite length_map. exact Hi. }
  split; [|split; [|split; [|split]]].
  - intros n Hn. rewrite (listMessages_in w i Hi), Hm.
    unfold size_is in Hn. rewrite Hn. reflexivity.
  - intros q Hq. rewrite (deleteMessage_in w i Hi).
    destruct (getitem_Returns _ _ _ Hm) as (k & -> & Hk). rewrite Hk.
    rewrite (delete_flagged m Hf), (list_insert_id _ _ _ Hk), set_messages_same.
    unfold emit_event, bind, gets, modify. simpl. rewrite Hq. reflexivity.
  - rewrite (listMessages_in w i Hi), (listMessages_in _ i Hu).
    unfold unstaged. simpl. rewrite getitem_map, Hm. reflexivity.
  - rewrite (getMessage_in w i Hi), (getMessage_in _ i Hu). reflexivity.
  - rewrite (getUidl_in sha w i Hi), (getUidl_in sha _ i Hu).
    unfold unstaged. simpl. rewrite getitem_map, Hm. reflexivity.
Qed.

Lemma single_message_operations_ignore_flag_witness :
  (forall n, size_is (delete abc) n ->
     listMessages (Some 0) (running [delete abc; hello])
     = (Returns (Size n), running [delete abc; hello]))
  /\ (forall q, root (running [delete abc; hello]) = Some q ->
        deleteMessage 0 (running [delete abc; hello])
        = (Returns tt,
           set_root (q ++ [EVENT_MAILBOXCHANGE]) (running [delete abc; hello])))
  /\ (listMessages (Some 0) (running [delete abc; hello])).1
     = (listMessages (Some 0) (unstaged (running [delete abc; hello]))).1
  /\ (getMessage 0 (running [delete abc; hello])).1
     = (getMessage 0 (unstaged (running [delete abc; hello]))).1
  /\ (getUidl (fun _ => []) 0 (running [delete abc; hello])).1
     = (getUidl (fun _ => []) 0 (unstaged (running [delete abc; hello]))).1.
Proof.
  apply (single_message_operations_ignore_flag
           (fun _ => []) (running [delete abc; hello]) 0 (delete abc)).
  - cbn. lia.
  - reflexivity.
  - reflexivity.
Defined.

(** C6, on the code: no operation checks the index from below.  Whether
    the number [n] of the claim is the index itself or, as the protocol
    engine passes it, [n - 1], [n = 0] is served. *)
Lemma index_zero_is_served :
  ~ (forall (w : World) (n : Z),
       ~ (1 <= n <= Z.of_nat (length (messages w))) ->
       raised (listMessages (Some (n - 1)) w).1)
  /\ ~ (forall (w : World) (n : Z),
          ~ (1 <= n <= Z.of_nat (length (messages w))) ->
          raised (listMessages (Some n) w).1).
Proof.
  split; intros H.
  - apply (H (running [abc]) 0). clear H. cbn. lia.
  - apply (H (running [abc]) 0). clear H. cbn. lia.
Qed.

(** C6, amended: every operation that takes an index checks it against
    the message count from above only.  At or past the count it raises
    [ValueError] and changes nothing; below minus the count the call
    fails as well; from minus the count up to -1 the index is accepted and
    stands for the message that many places from the end. *)
Theorem index_checked_from_above_only
    (sha : bytes -> pystr) (w : World) (i : Z) :
  (i >= Z.of_nat (length (messages w)) ->
     listMessages (Some i) w = (Raises ValueError, w)
     /\ getMessage i w = (Raises ValueError, w)
     /\ getUidl sha i w = (Raises ValueError, w)
     /\ deleteMessage i w = (Raises ValueError, w))
  /\ (i < - Z.of_nat (length (messages w)) ->
        listMessages (Some i) w = (Raises IndexError, w)
        /\ getMessage i w = (Raises AttributeError, w)
        /\ getUidl sha i w = (Raises IndexError, w)
        /\ deleteMessage i w = (Raises IndexError, w))
  /\ (- Z.of_nat (length (messages w)) <= i < 0 ->
        listMessages (Some i) w
        = listMessages (Some (i + Z.of_nat (length (messages w)))) w
        /\ getMessage i w = getMessage (i + Z.of_nat (length (messages w))) w
        /\ getUidl sha i w = getUidl sha (i + Z.of_nat (length (messages w))) w
        /\ deleteMessage i w = deleteMessage (i + Z.of_nat (length (messages w))) w).
Proof.
  split; [|split].
  - intros H. run. rewrite bool_decide_eq_true_2 by lia. auto.
  - intros H.
    rewrite listMessages_in, getMessage_in, getUidl_in, deleteMessage_in by lia.
    rewrite getitem_below, position_below by lia. auto.
  - intros H.
    rewrite !listMessages_in, !getMessage_in, !getUidl_in, !deleteMessage_in by lia.
    rewrite <- getitem_wraps, <- position_wraps by lia. auto.
Qed.

Lemma index_checked_from_above_only_witness :
  (listMessages (Some 2) (running [abc; hello])
   = (Raises ValueError, running [abc; hello])
   /\ getMessage 2 (running [abc; hello]) = (Raises ValueError, running [abc; hello])
   /\ getUidl (fun _ => []) 2 (running [abc; hello])
      = (Raises ValueError, running [abc; hello])
   /\ deleteMessage 2 (running [abc; hello]) = (Raises ValueError, running [abc; hello]))
  /\ (listMessages (Some (-3)) (running [abc; hello])
      = (Raises IndexError, running [abc; hello])
      /\ getMessage (-3) (running [abc; hello])
         = (Raises AttributeError, running [abc; hello])
      /\ getUidl (fun _ => []) (-3) (running [abc; hello])
         = (Raises IndexError, running [abc; hello])
      /\ deleteMessage (-3) (running [abc; hello])
         = (Raises IndexError, running [abc; hello]))
  /\ (listMessages (Some (-1)) (running [abc; hello])
      = listMessages (Some (-1 + 2)) (running [abc; hello])
      /\ getMessage (-1) (running [abc; hello])
         = getMessage (-1 + 2) (running [abc; hello])
      /\ getUidl (fun _ => []) (-1) (running [abc; hello])
         = getUidl (fun _ => []) (-1 + 2) (running [abc; hello])
      /\ deleteMessage (-1) (running [abc; hello])
         = deleteMessage (-1 + 2) (running [abc; hello])).
Proof.
  split; [|split].
  - apply (proj1 (index_checked_from_above_only
                    (fun _ => []) (running [abc; hello]) 2)).
    cbn. lia.
  - apply (proj1 (proj2 (index_checked_from_above_only
                           (fun _ => []) (running [abc; hello]) (-3)))).
    cbn. lia.
  - apply (proj2 (proj2 (index_checked_from_above_only
                           (fun _ => []) (running [abc; hello]) (-1)))).
    cbn. lia.
Defined.

(** ** Notifications *)

Lemma listMessages_state (index : option Z) (w : World) :
  (listMessages index w).2 = w.
Proof.
  destruct index as [i|].
  - run. case_bool_decide; [reflexivity|].
    destruct (getitem (messages w) i) as [m|e]; [|reflexivity].
    destruct (py_len (content m)); reflexivity.
  - unfold listMessages, bind, gets, ret. simpl.
    pose proof (for_each_len_state (messages w) w) as H.
    destruct (for_each _ (messages w) w) as [[l|e] w']; exact H.
Qed.

Lemma getMessage_state (i : Z) (w : World) : (getMessage i w).2 = w.
Proof. run. case_bool_decide; reflexivity. Qed.

Lemma getUidl_state sha (i : Z) (w : World) : (getUidl sha i w).2 = w.
Proof.
  run. case_bool_decide; [reflexivity|].
  destruct (getitem (messages w) i) as [m|e]; reflexivity.
Qed.

Lemma deleteMessage_emits (i : Z) (w w' : World) :
  deleteMessage i w = (Returns tt, w') ->
  exists q, root w = Some q /\ root w' = Some (q ++ [EVENT_MAILBOXCHANGE]).
Proof.
  run. case_bool_decide; [discriminate|].
  destruct (position (length (messages w)) i) as [k|]; [|discriminate].
  destruct (messages w !! k) as [m|]; [|discriminate].
  simpl. destruct (root w) as [q|]; [|discriminate].
  intros [= <-]. exists q. split; reflexivity.
Qed.

(** C10: a [deleteMessage] call that returns has put one mailbox-changed
    event at the tail of the Tk queue, while [listMessages], [getMessage]
    and [getUidl] leave the whole world, queue and mailbox, as it was. *)
Theorem deleteMessage_notifies_reads_do_not
    (sha : bytes -> pystr) (w : World) :
  (forall i w', deleteMessage i w = (Returns tt, w') ->
     exists q, root w = Some q /\ root w' = Some (q ++ [EVENT_MAILBOXCHANGE]))
  /\ (forall index, (listMessages index w).2 = w)
  /\ (forall i, (getMessage i w).2 = w)
  /\ (forall i, (getUidl sha i w).2 = w).
Proof.
  split; [|split; [|split]].
  - intros i w'. apply deleteMessage_emits.
  - intros index. apply listMessages_state.
  - intros i. apply getMessage_state.
  - intros i. apply getUidl_state.
Qed.

Lemma deleteMessage_notifies_reads_do_not_witness :
  exists q, root (running [abc; hello]) = Some q
            /\ root (deleteMessage 1 (running [abc; hello])).2
               = Some (q ++ [EVENT_MAILBOXCHANGE]).
Proof.
  apply (proj1 (deleteMessage_notifies_reads_do_not (fun _ => []) (running [abc; hello]))
           1 (deleteMessage 1 (running [abc; hello])).2).
  reflexivity.
Defined.

(** ** UIDs *)

Lemma getUidl_bytes sha (w : World) (i : Z) (m : Message) (b : bytes) :
  i < Z.of_nat (length (messages w)) ->
  getitem (messages w) i = Returns m ->
  content m = PyBytes b ->
  getUidl sha i w = (Returns (sha b), w).
Proof.
  intros Hi Hm Hb. rewrite (getUidl_in sha w i Hi), Hm, Hb. reflexivity.
Qed.

Lemma getUidl_content_only sha (w1 w2 : World) (i1 i2 : Z) (m1 m2 : Message) :
  i1 < Z.of_nat (length (messages w1)) ->
  i2 < Z.of_nat (length (messages w2)) ->
  getitem (messages w1) i1 = Returns m1 ->
  getitem (messages w2) i2 = Returns m2 ->
  content m1 = content m2 ->
  (getUidl sha i1 w1).1 = (getUidl sha i2 w2).1.
Proof.
  intros H1 H2 G1 G2 E.
  rewrite (getUidl_in sha w1 i1 H1), (getUidl_in sha w2 i2 H2), G1, G2, E.
  reflexivity.
Qed.

(** C7: at an index the code accepts whose message has a [str] content,
    as every message the GUI stores has, [getUidl] raises [TypeError]
    whatever the digest function: no UID comes back. *)
Theorem getUidl_raises_on_str_content
    (sha : bytes -> pystr) (w : World) (i : Z) (m : Message) (s : pystr) :
  i < Z.of_nat (length (messages w)) ->
  getitem (messages w) i = Returns m ->
  content m = PyStr s ->
  getUidl sha i w = (Raises TypeError, w).
Proof.
  intros Hi Hm Hs. rewrite (getUidl_in sha w i Hi), Hm, Hs. reflexivity.
Qed.

Lemma getUidl_raises_on_str_content_witness :
  getUidl (fun _ => []) 0 (running [generated])
  = (Raises TypeError, running [generated]).
Proof.
  apply (getUidl_raises_on_str_content
           (fun _ => []) (running [generated]) 0 generated generated_content).
  - cbn. lia.
  - reflexivity.
  - reflexivity.
Defined.

(** ** Logins *)

Lemma existsb_is_IMailbox (interfaces : list Interface) :
  IMailbox ∈ interfaces -> existsb is_IMailbox interfaces = true.
Proof.
  induction interfaces as [|x l IH]; intros H.
  - apply not_elem_of_nil in H. contradiction.
  - apply elem_of_cons in H as [<-|H]; simpl.
    + reflexivity.
    + rewrite (IH H). apply orb_true_r.
Qed.

(** C5, on the code: a login made after another one was granted the
    mailbox is granted it too. *)
Lemma second_login_is_granted :
  ~ (forall (realm : SimpleRealm) (first second : bytes) (w w' : World) (a : Avatar),
       requestAvatar realm first PyNone [IMailbox] w = (Returns a, w') ->
       raised (requestAvatar realm second PyNone [IMailbox] w').1).
Proof.
  intros H.
  exact (H (mkSimpleRealm mailbox) [x75; x73; x65; x72] [x75; x73; x65; x72]
           (running [delete abc]) (running [delete abc])
           (IMailbox, mailbox, ret tt) eq_refl).
Qed.

(** C5, amended: the mailbox has no lock.  A login that asks for the
    [IMailbox] interface is granted the one shared mailbox whatever the
    world is, and the grant changes nothing: not the messages, not their
    flags, not the log. *)
Theorem requestAvatar_grants_shared_mailbox
    (self : SimpleRealm) (avatarId : bytes) (mind : PyObj)
    (interfaces : list Interface) (w : World) :
  IMailbox ∈ interfaces ->
  requestAvatar self avatarId mind interfaces w
  = (Returns (IMailbox, mailbox, ret tt), w).
Proof.
  intros H. unfold requestAvatar.
  rewrite (existsb_is_IMailbox interfaces H). reflexivity.
Qed.

Lemma requestAvatar_grants_shared_mailbox_witness :
  requestAvatar (mkSimpleRealm mailbox) [x75; x73; x65; x72] PyNone [IMailbox]
    (running [delete abc])
  = (Returns (IMailbox, mailbox, ret tt), running [delete abc]).
Proof.
  apply (requestAvatar_grants_shared_mailbox
           (mkSimpleRealm mailbox) [x75; x73; x65; x72] PyNone [IMailbox]
           (running [delete abc])).
  apply list_elem_of_here.
Defined.

(** ** The trace *)

Lemma incoming_line_steps utf8_decode (line : bytes) (w : World) :
  incoming_line utf8_decode line w
  = match utf8_decode line with
    | None => (Raises UnicodeDecodeError, w)
    | Some s =>
        match root w with
        | None =>
            (Raises AttributeError,
             set_messagelog
               (messagelog w ++ [str_lit "C: " ++ strip newline_return s]) w)
        | Some q => (Returns tt, logged "C: " s q w)
        end
    end.
Proof.
  unfold incoming_line, decode, emit_event, bind, gets, modify, eval, raise.
  destruct (utf8_decode line) as [s|]; [|reflexivity].
  simpl. destruct (root w); reflexivity.
Qed.

Lemma outgoing_line_steps utf8_decode (line : bytes) (w : World) :
  outgoing_line utf8_decode line w
  = match utf8_decode line with
    | None => (Raises UnicodeDecodeError, w)
    | Some s =>
        match root w with
        | None =>
            (Raises AttributeError,
             set_messagelog
               (messagelog w ++ [str_lit "S: " ++ strip newline_return s]) w)
        | Some q => (Returns tt, logged "S: " s q w)
        end
    end.
Proof.
  unfold outgoing_line, decode, emit_event, bind, gets, modify, eval, raise.
  destruct (utf8_decode line) as [s|]; [|reflexivity].
  simpl. destruct (root w); reflexivity.
Qed.

(** C8: the trace records a line only when it decodes.  On a line that is
    not UTF-8, [lineReceived] raises [UnicodeDecodeError] with the log, the
    mailbox and the session as they were: the line that came in is in no
    log entry and the base class never sees it; [sendLine] and
    [successResponse] fail alike on what they are to send.  A line that
    decodes is, with [root] bound, the last log entry of the world the base
    method starts on, mailbox and session still as they were; with [root]
    unbound the entry is made and the base method is not run. *)
Theorem trace_misses_undecodable_lines
    (utf8_decode : bytes -> option pystr) (Protocol : Type)
    (pop3_successResponse : PyObj -> bytes)
    (POP3_successResponse : PyObj -> M (Protocol * World) unit)
    (POP3_lineReceived POP3_sendLine : bytes -> M (Protocol * World) unit)
    (line : bytes) (message : PyObj) (p : Protocol) (w : World) :
  (utf8_decode line = None ->
     lineReceived utf8_decode Protocol POP3_lineReceived line (p, w)
     = (Raises UnicodeDecodeError, (p, w))
     /\ sendLine utf8_decode Protocol POP3_sendLine line (p, w)
        = (Raises UnicodeDecodeError, (p, w)))
  /\ (utf8_decode (pop3_successResponse message) = None ->
        successResponse utf8_decode Protocol pop3_successResponse
          POP3_successResponse message (p, w)
        = (Raises UnicodeDecodeError, (p, w)))
  /\ (forall s q, utf8_decode line = Some s -> root w = Some q ->
        lineReceived utf8_decode Protocol POP3_lineReceived line (p, w)
        = POP3_lineReceived line (p, logged "C: " s q w)
        /\ sendLine utf8_decode Protocol POP3_sendLine line (p, w)
           = POP3_sendLine line (p, logged "S: " s q w))
  /\ (forall s q,
        utf8_decode (pop3_successResponse message) = Some s ->
        root w = Some q ->
        successResponse utf8_decode Protocol pop3_successResponse
          POP3_successResponse message (p, w)
        = POP3_successResponse message (p, logged "S: " s q w))
  /\ (forall s q prefix,
        last (messagelog (logged prefix s q w))
        = Some (str_lit prefix ++ strip newline_return s)
        /\ messages (logged prefix s q w) = messages w)
  /\ (forall s, utf8_decode line = Some s -> root w = None ->
        lineReceived utf8_decode Protocol POP3_lineReceived line (p, w)
        = (Raises AttributeError,
           (p, set_messagelog
                 (messagelog w ++ [str_lit "C: " ++ strip newline_return s]) w))
        /\ sendLine utf8_decode Protocol POP3_sendLine line (p, w)
           = (Raises AttributeError,
              (p, set_messagelog
                    (messagelog w ++ [str_lit "S: " ++ strip newline_return s]) w))).
Proof.
  unfold lineReceived, sendLine, successResponse, bind, on_snd. cbn [fst snd].
  rewrite incoming_line_steps, !outgoing_line_steps.
  split; [|split; [|split; [|split; [|split]]]].
  - intros ->. split; reflexivity.
  - intros ->. reflexivity.
  - intros s q -> ->. split; reflexivity.
  - intros s q -> ->. reflexivity.
  - intros s q prefix. unfold logged. cbn [messagelog messages].
    split; [apply last_snoc|reflexivity].
  - intros s -> ->. split; reflexivity.
Qed.

Lemma trace_misses_undecodable_lines_witness :
  lineReceived ascii_decode unit (fun _ => ret tt)
    [x55; x53; x45; x52; x20; xff; x0d; x0a] (tt, running [abc])
  = (Raises UnicodeDecodeError, (tt, running [abc]))
  /\ sendLine ascii_decode unit (fun _ => ret tt)
       [x55; x53; x45; x52; x20; xff; x0d; x0a] (tt, running [abc])
     = (Raises UnicodeDecodeError, (tt, running [abc])).
Proof.
  apply (proj1 (trace_misses_undecodable_lines
                  ascii_decode unit (fun _ => []) (fun _ => ret tt)
                  (fun _ => ret tt) (fun _ => ret tt)
                  [x55; x53; x45; x52; x20; xff; x0d; x0a] PyNone tt
                  (running [abc]))).
  reflexivity.
Defined.

(** * More of the mailbox *)

Lemma emit_event_bound (e : Event) (w : World) (q : list Event) :
  root w = Some q -> emit_event e w = (Returns tt, set_root (q ++ [e]) w).
Proof. intros H. unfold emit_event, bind, gets, modify. simpl. rewrite H. reflexivity. Qed.

Lemma emit_event_unbound (e : Event) (w : World) :
  root w = None -> emit_event e w = (Raises AttributeError, w).
Proof. intros H. unfold emit_event, bind, gets, raise. simpl. rewrite H. reflexivity. Qed.

Lemma position_accepted n i k : position n i = Some k -> i < Z.of_nat n.
Proof.
  unfold position. intros H. repeat case_bool_decide; simplify_eq; lia.
Qed.

Lemma position_lookup {A} (l : list A) i k :
  position (length l) i = Some k -> exists x, l !! k = Some x.
Proof.
  intros H. apply position_lt in H. apply lookup_lt_is_Some_2 in H.
  destruct H as [x Hx]. eauto.
Qed.

Lemma getitem_position {A} (l : list A) i k x :
  position (length l) i = Some k -> l !! k = Some x -> getitem l i = Returns x.
Proof. intros Hk Hx. unfold getitem. rewrite Hk, Hx. reflexivity. Qed.

Lemma undeleteMessages_in (w : World) (i : Z) :
  i < Z.of_nat (length (messages w)) ->
  undeleteMessages i w
  = match position (length (messages w)) i with
    | Some k =>
        match messages w !! k with
        | Some m =>
            emit_event EVENT_MAILBOXCHANGE
              (set_messages (<[k := undelete m]> (messages w)) w)
        | None => (Raises IndexError, w)
        end
    | None => (Raises IndexError, w)
    end.
Proof.
  intros H. run. rewrite bool_decide_eq_false_2 by lia.
  destruct (position (length (messages w)) i) as [k|]; [|reflexivity].
  destruct (messages w !! k) as [m|]; [|reflexivity].
  simpl. destruct (root w); reflexivity.
Qed.

Lemma addMessage_steps (msg : Message) (w : World) :
  addMessage msg w
  = emit_event EVENT_MAILBOXCHANGE (set_messages (messages w ++ [msg]) w).
Proof. run. destruct (root w); reflexivity. Qed.

Lemma sync_steps (w : World) :
  sync w
  = emit_event EVENT_MAILBOXCHANGE
      (set_messages (filter unflagged (messages w)) w).
Proof. run. rewrite sync_keep_filter. destruct (root w); reflexivity. Qed.

Lemma for_each_len_app (l1 l2 : list Message) (w : World) :
  for_each (fun m => eval (py_len (content m))) (l1 ++ l2) w
  = match for_each (fun m => eval (py_len (content m))) l1 w with
    | (Returns s1, _) =>
        match for_each (fun m => eval (py_len (content m))) l2 w with
        | (Returns s2, _) => (Returns (s1 ++ s2), w)
        | (Raises e, _) => (Raises e, w)
        end
    | (Raises e, _) => (Raises e, w)
    end.
Proof.
  pose proof (for_each_len_state l2 w) as H2.
  induction l1 as [|m l1 IH]; simpl.
  - destruct (for_each _ l2 w) as [[s2|e] w']; simpl in H2; subst; reflexivity.
  - pose proof (for_each_len_state l1 w) as H1.
    unfold bind, eval in *.
    destruct (py_len (content m)) as [n|e]; [|reflexivity].
    rewrite IH.
    destruct (for_each _ l1 w) as [[s1|e] w1]; simpl in H1; subst; [|reflexivity].
    destruct (for_each _ l2 w) as [[s2|e] w2]; reflexivity.
Qed.

Lemma for_each_len_Forall2 (msgs : list Message) (w w' : World) sizes :
  for_each (fun m => eval (py_len (content m))) msgs w = (Returns sizes, w') ->
  Forall2 size_is msgs sizes.
Proof.
  revert sizes w'. induction msgs as [|m msgs IH]; simpl; intros sizes w'.
  - intros [= <- _]. constructor.
  - unfold bind at 1, eval at 1. destruct (py_len (content m)) as [n|e] eqn:E;
      [|discriminate].
    unfold bind. destruct (for_each _ msgs w) as [[s|e] w1] eqn:E1; [|discriminate].
    intros [= <- _]. constructor; [exact E|]. exact (IH s w1 eq_refl).
Qed.

Lemma listMessages_None_steps (w : World) :
  listMessages None w
  = match for_each (fun m => eval (py_len (content m))) (messages w) w with
    | (Returns l, _) => (Returns (Sizes l), w)
    | (Raises e, _) => (Raises e, w)
    end.
Proof.
  unfold listMessages, bind, gets, ret. simpl.
  pose proof (for_each_len_state (messages w) w) as H.
  destruct (for_each _ (messages w) w) as [[l|e] w']; simpl in H; subst; reflexivity.
Qed.

Lemma for_each_len_returns (msgs : list Message) (w : World) sizes :
  Forall2 size_is msgs sizes ->
  for_each (fun m => eval (py_len (content m))) msgs w = (Returns sizes, w).
Proof.
  induction 1 as [|m n msgs sizes Hm _ IH]; simpl; [reflexivity|].
  unfold bind, eval in *. unfold size_is in Hm. rewrite Hm, IH. reflexivity.
Qed.

Lemma listMessages_None_Forall2 (w w' : World) sizes :
  listMessages None w = (Returns (Sizes sizes), w') ->
  Forall2 size_is (messages w) sizes.
Proof.
  rewrite listMessages_None_steps.
  destruct (for_each _ (messages w) w) as [[l|e] w1] eqn:E; [|discriminate].
  intros [= <- _]. exact (for_each_len_Forall2 _ _ _ _ E).
Qed.

Lemma listMessages_None_returns (w : World) sizes :
  Forall2 size_is (messages w) sizes ->
  listMessages None w = (Returns (Sizes sizes), w).
Proof.
  intros H. rewrite listMessages_None_steps, (for_each_len_returns _ w _ H).
  reflexivity.
Qed.

(** X1: [addMessage] puts the message in the last slot and queues one
    mailbox-changed event; the listing then is the former listing with the
    size of the new message at its end, and the new message answers to the
    former count as its index. *)
Theorem addMessage_extends_listing
    (w : World) (msg : Message) (q : list Event) (sizes : list nat) (n : nat) :
  root w = Some q ->
  listMessages None w = (Returns (Sizes sizes), w) ->
  size_is msg n ->
  exists w',
    addMessage msg w = (Returns tt, w')
    /\ messages w' = messages w ++ [msg]
    /\ root w' = Some (q ++ [EVENT_MAILBOXCHANGE])
    /\ messagelog w' = messagelog w
    /\ listMessages None w' = (Returns (Sizes (sizes ++ [n])), w')
    /\ listMessages (Some (Z.of_nat (length (messages w)))) w'
       = (Returns (Size n), w').
Proof.
  intros Hq Hl Hn.
  exists (set_root (q ++ [EVENT_MAILBOXCHANGE])
            (set_messages (messages w ++ [msg]) w)).
  split; [|split; [|split; [|split; [|split]]]]; try reflexivity.
  - rewrite addMessage_steps. apply emit_event_bound. exact Hq.
  - apply listMessages_None_returns. simpl.
    apply Forall2_app; [exact (listMessages_None_Forall2 _ _ _ Hl)|].
    constructor; [exact Hn|constructor].
  - rewrite listMessages_in by (simpl; rewrite length_app; simpl; lia).
    simpl.
    rewrite (getitem_position _ _ (length (messages w)) msg).
    + unfold size_is in Hn. rewrite Hn. reflexivity.
    + rewrite position_nonneg by (rewrite length_app; simpl; lia).
      f_equal. lia.
    + rewrite lookup_app_r by lia. rewrite Nat.sub_diag. reflexivity.
Qed.

Lemma addMessage_extends_listing_witness :
  exists w',
    addMessage hello (running [delete abc]) = (Returns tt, w')
    /\ messages w' = [delete abc; hello]
    /\ root w' = Some [EVENT_MAILBOXCHANGE]
    /\ messagelog w' = []
    /\ listMessages None w' = (Returns (Sizes [3; 5]%nat), w')
    /\ listMessages (Some 1) w' = (Returns (Size 5), w').
Proof.
  apply (addMessage_extends_listing (running [delete abc]) hello [] [3%nat] 5%nat).
  - reflexivity.
  - reflexivity.
  - reflexivity.
Defined.

Lemma deleteMessage_returns (w : World) (i : Z) (k : nat) (m : Message) q :
  position (length (messages w)) i = Some k ->
  messages w !! k = Some m ->
  root w = Some q ->
  deleteMessage i w
  = (Returns tt,
     set_root (q ++ [EVENT_MAILBOXCHANGE])
       (set_messages (<[k := delete m]> (messages w)) w)).
Proof.
  intros Hk Hm Hq.
  rewrite (deleteMessage_in w i (position_accepted _ _ _ Hk)), Hk, Hm.
  apply emit_event_bound. exact Hq.
Qed.

Lemma undeleteMessages_returns (w : World) (i : Z) (k : nat) (m : Message) q :
  position (length (messages w)) i = Some k ->
  messages w !! k = Some m ->
  root w = Some q ->
  undeleteMessages i w
  = (Returns tt,
     set_root (q ++ [EVENT_MAILBOXCHANGE])
       (set_messages (<[k := undelete m]> (messages w)) w)).
Proof.
  intros Hk Hm Hq.
  rewrite (undeleteMessages_in w i (position_accepted _ _ _ Hk)), Hk, Hm.
  apply emit_event_bound. exact Hq.
Qed.

Lemma delete_not_unflagged (m : Message) : ~ unflagged (delete m).
Proof. unfold unflagged, deleted, delete. simpl. discriminate. Qed.

Lemma undelete_delete (m : Message) : unflagged m -> undelete (delete m) = m.
Proof.
  destruct m as [c l d]. unfold unflagged, deleted, undelete, delete. simpl.
  intros ->. reflexivity.
Qed.

(** X2: staging one message and committing removes it.  With [root] bound,
    [deleteMessage(index)] followed by [sync()] returns and leaves the
    unflagged messages of the other slots, in order; when nothing else was
    staged the mailbox is the former one without that slot.  Two events are
    queued and the log is untouched. *)
Theorem delete_then_sync_removes_slot
    (w : World) (i : Z) (k : nat) (q : list Event) :
  root w = Some q ->
  position (length (messages w)) i = Some k ->
  exists w',
    (deleteMessage i;;; sync) w = (Returns tt, w')
    /\ messages w'
       = filter unflagged (take k (messages w) ++ drop (S k) (messages w))
    /\ (Forall unflagged (messages w) ->
        messages w' = take k (messages w) ++ drop (S k) (messages w))
    /\ root w' = Some (q ++ [EVENT_MAILBOXCHANGE; EVENT_MAILBOXCHANGE])
    /\ messagelog w' = messagelog w.
Proof.
  intros Hq Hk.
  destruct (position_lookup (messages w) i k Hk) as [m Hm].
  assert (E : filter unflagged (<[k := delete m]> (messages w))
              = filter unflagged (take k (messages w) ++ drop (S k) (messages w))).
  { rewrite insert_take_drop by (eapply lookup_lt_Some; exact Hm).
    rewrite !filter_app, filter_cons_False by apply delete_not_unflagged.
    reflexivity. }
  eexists. split; [|split; [|split; [|split]]].
  - unfold bind. rewrite (deleteMessage_returns w i k m q Hk Hm Hq).
    rewrite sync_steps. apply emit_event_bound. reflexivity.
  - simpl. exact E.
  - intros Hall. simpl. rewrite E. apply filter_unflagged_all.
    apply Forall_app. split; [apply Forall_take|apply Forall_drop]; exact Hall.
  - simpl. rewrite <- app_assoc. reflexivity.
  - reflexivity.
Qed.

Lemma delete_then_sync_removes_slot_witness :
  exists w',
    (deleteMessage 1;;; sync) (running [abc; hello; generated]) = (Returns tt, w')
    /\ messages w' = [abc; generated]
    /\ (Forall unflagged [abc; hello; generated] -> messages w' = [abc; generated])
    /\ root w' = Some [EVENT_MAILBOXCHANGE; EVENT_MAILBOXCHANGE]
    /\ messagelog w' = [].
Proof.
  apply (delete_then_sync_removes_slot (running [abc; hello; generated]) 1 1%nat []).
  - reflexivity.
  - reflexivity.
Defined.

(** X3: staging a deletion and withdrawing it at the same index is a round
    trip on an unflagged message: the messages are as before, flags
    included; only two events have been queued. *)
Theorem delete_then_undelete_restores
    (w : World) (i : Z) (k : nat) (m : Message) (q : list Event) :
  root w = Some q ->
  position (length (messages w)) i = Some k ->
  messages w !! k = Some m ->
  unflagged m ->
  (deleteMessage i;;; undeleteMessages i) w
  = (Returns tt,
     {| root := Some (q ++ [EVENT_MAILBOXCHANGE; EVENT_MAILBOXCHANGE]);
        messagelog := messagelog w;
        messages := messages w |}).
Proof.
  intros Hq Hk Hm Hu.
  assert (Hlt : (k < length (messages w))%nat) by (eapply lookup_lt_Some; exact Hm).
  unfold bind. rewrite (deleteMessage_returns w i k m q Hk Hm Hq).
  rewrite (undeleteMessages_returns _ i k (delete m) (q ++ [EVENT_MAILBOXCHANGE])).
  - simpl. unfold set_root, set_messages. simpl.
    rewrite list_insert_insert_eq, (undelete_delete m Hu), (list_insert_id _ _ _ Hm).
    rewrite <- app_assoc. reflexivity.
  - simpl. rewrite length_insert. exact Hk.
  - simpl. apply list_lookup_insert_eq. exact Hlt.
  - reflexivity.
Qed.

Lemma delete_then_undelete_restores_witness :
  (deleteMessage (-1);;; undeleteMessages (-1)) (running [delete abc; hello])
  = (Returns tt,
     {| root := Some [EVENT_MAILBOXCHANGE; EVENT_MAILBOXCHANGE];
        messagelog := [];
        messages := [delete abc; hello] |}).
Proof.
  apply (delete_then_undelete_restores
           (running [delete abc; hello]) (-1) 1%nat hello []).
  - reflexivity.
  - reflexivity.
  - reflexivity.
  - reflexivity.
Defined.

Lemma map_content_insert (f : Message -> Message) (msgs : list Message) k m :
  (forall x, content (f x) = content x) ->
  msgs !! k = Some m ->
  map content (<[k := f m]> msgs) = map content msgs.
Proof.
  intros Hf Hm. rewrite list_fmap_insert, Hf.
  apply list_insert_id. rewrite list_lookup_fmap, Hm. reflexivity.
Qed.

Lemma deleteMessage_contents (w : World) (i : Z) :
  contents (deleteMessage i w).2 = contents w.
Proof.
  unfold contents.
  destruct (decide (i < Z.of_nat (length (messages w)))) as [Hi|Hi].
  - rewrite (deleteMessage_in w i Hi).
    destruct (position (length (messages w)) i) as [k|]; [|reflexivity].
    destruct (messages w !! k) as [m|] eqn:Hm; [|reflexivity].
    unfold emit_event, bind, gets, modify, raise. simpl.
    destruct (root w); simpl; apply map_content_insert; auto.
  - run. rewrite bool_decide_eq_true_2 by lia. reflexivity.
Qed.

Lemma undeleteMessages_contents (w : World) (i : Z) :
  contents (undeleteMessages i w).2 = contents w.
Proof.
  unfold contents.
  destruct (decide (i < Z.of_nat (length (messages w)))) as [Hi|Hi].
  - rewrite (undeleteMessages_in w i Hi).
    destruct (position (length (messages w)) i) as [k|]; [|reflexivity].
    destruct (messages w !! k) as [m|] eqn:Hm; [|reflexivity].
    unfold emit_event, bind, gets, modify, raise. simpl.
    destruct (root w); simpl; apply map_content_insert; auto.
  - run. rewrite bool_decide_eq_true_2 by lia. reflexivity.
Qed.

Lemma for_each_len_contents (l1 l2 : list Message) (w1 w2 : World) :
  map content l1 = map content l2 ->
  (for_each (fun m => eval (py_len (content m))) l1 w1).1
  = (for_each (fun m => eval (py_len (content m))) l2 w2).1.
Proof.
  revert l2. induction l1 as [|m1 l1 IH]; intros [|m2 l2] H;
    try discriminate; [reflexivity|].
  simpl in H. injection H as Hm Hl. simpl. unfold bind, eval in *.
  rewrite Hm. destruct (py_len (content m2)); [|reflexivity].
  specialize (IH l2 Hl).
  destruct (for_each _ l1 w1) as [[s1|e1] ?], (for_each _ l2 w2) as [[s2|e2] ?];
    simpl in IH; simplify_eq; reflexivity.
Qed.

Lemma listMessages_None_contents (w1 w2 : World) :
  contents w1 = contents w2 ->
  (listMessages None w1).1 = (listMessages None w2).1.
Proof.
  intros H. rewrite !listMessages_None_steps.
  pose proof (for_each_len_contents (messages w1) (messages w2) w1 w2 H) as E.
  destruct (for_each _ (messages w1) w1) as [[s1|e1] ?],
           (for_each _ (messages w2) w2) as [[s2|e2] ?];
    simpl in E; simplify_eq; reflexivity.
Qed.

(** X4: staging a deletion and withdrawing one change no stored content
    and no count, whatever the index and whether the call returns; so
    [listMessages()] reports after either call what it reported before. *)
Theorem staging_keeps_contents (w : World) (i : Z) :
  contents (deleteMessage i w).2 = contents w
  /\ contents (undeleteMessages i w).2 = contents w
  /\ length (messages (deleteMessage i w).2) = length (messages w)
  /\ length (messages (undeleteMessages i w).2) = length (messages w)
  /\ (listMessages None (deleteMessage i w).2).1 = (listMessages None w).1
  /\ (listMessages None (undeleteMessages i w).2).1 = (listMessages None w).1.
Proof.
  pose proof (deleteMessage_contents w i) as Hd.
  pose proof (undeleteMessages_contents w i) as Hu.
  split; [exact Hd|]. split; [exact Hu|].
  split; [|split; [|split]].
  - apply (f_equal length) in Hd. unfold contents in Hd.
    rewrite !length_map in Hd. exact Hd.
  - apply (f_equal length) in Hu. unfold contents in Hu.
    rewrite !length_map in Hu. exact Hu.
  - apply listMessages_None_contents, Hd.
  - apply listMessages_None_contents, Hu.
Qed.

(** X5: a method changes the mailbox before it notifies.  While [root] is
    unbound each mutator raises [AttributeError] with its change already
    made: the flag set, the flagged messages gone, the message appended. *)
Theorem mutation_precedes_notification (w : World) :
  root w = None ->
  (forall i k m,
      position (length (messages w)) i = Some k ->
      messages w !! k = Some m ->
      deleteMessage i w
      = (Raises AttributeError,
         set_messages (<[k := delete m]> (messages w)) w))
  /\ sync w
     = (Raises AttributeError,
        set_messages (filter unflagged (messages w)) w)
  /\ (forall msg,
        addMessage msg w
        = (Raises AttributeError, set_messages (messages w ++ [msg]) w)).
Proof.
  intros Hr. split; [|split].
  - intros i k m Hk Hm.
    rewrite (deleteMessage_in w i (position_accepted _ _ _ Hk)), Hk, Hm.
    apply emit_event_unbound. exact Hr.
  - rewrite sync_steps. apply emit_event_unbound. exact Hr.
  - intros msg. rewrite addMessage_steps. apply emit_event_unbound. exact Hr.
Qed.

Lemma mutation_precedes_notification_witness :
  sync {| root := None; messagelog := []; messages := [delete abc; hello] |}
  = (Raises AttributeError,
     {| root := None; messagelog := []; messages := [hello] |}).
Proof.
  apply (proj1 (proj2 (mutation_precedes_notification
           {| root := None; messagelog := []; messages := [delete abc; hello] |}
           eq_refl))).
Defined.

Lemma filter_flag_lengths (msgs : list Message) :
  (length (filter unflagged msgs) + length (filter flagged msgs))%nat
  = length msgs.
Proof.
  induction msgs as [|m msgs IH]; [reflexivity|].
  rewrite !filter_cons.
  destruct (decide (unflagged m)) as [Hu|Hu], (decide (flagged m)) as [Hf|Hf];
    unfold unflagged, flagged in *; simpl.
  - congruence.
  - lia.
  - lia.
  - destruct (deleted m); congruence.
Qed.

(** X6: [sync] shortens the mailbox by the number of flagged messages and
    by no more; a mailbox with nothing staged keeps its messages. *)
Theorem sync_drops_flagged_count (w : World) :
  (length (messages (sync w).2) + length (filter flagged (messages w)))%nat
  = length (messages w)
  /\ (Forall unflagged (messages w) -> messages (sync w).2 = messages w).
Proof.
  rewrite sync_messages. split.
  - apply filter_flag_lengths.
  - apply filter_unflagged_all.
Qed.

Lemma sync_drops_flagged_count_witness :
  messages (sync (running [abc; hello])).2 = [abc; hello].
Proof.
  apply (proj2 (sync_drops_flagged_count (running [abc; hello]))).
  repeat constructor.
Defined.

(** X7: the two forms of [listMessages] agree.  When the listing without
    an index returns, the call with an accepted index returns the entry of
    the listing at the slot the index stands for. *)
Theorem listMessages_index_agrees_with_listing
    (w w' : World) (sizes : list nat) (i : Z) (k : nat) :
  listMessages None w = (Returns (Sizes sizes), w') ->
  position (length (messages w)) i = Some k ->
  exists n, sizes !! k = Some n
            /\ listMessages (Some i) w = (Returns (Size n), w).
Proof.
  intros Hl Hk.
  pose proof (listMessages_None_Forall2 _ _ _ Hl) as HF.
  destruct (position_lookup (messages w) i k Hk) as [m Hm].
  destruct (Forall2_lookup_l _ _ _ _ _ HF Hm) as (n & Hn & Hs).
  exists n. split; [exact Hn|].
  rewrite (listMessages_in w i (position_accepted _ _ _ Hk)).
  rewrite (getitem_position _ _ _ _ Hk Hm).
  unfold size_is in Hs. rewrite Hs. reflexivity.
Qed.

Lemma listMessages_index_agrees_with_listing_witness :
  exists n, [3; 5]%nat !! 1%nat = Some n
            /\ listMessages (Some (-1)) (running [delete abc; hello])
               = (Returns (Size n), running [delete abc; hello]).
Proof.
  apply (listMessages_index_agrees_with_listing
           (running [delete abc; hello]) (running [delete abc; hello])
           [3; 5]%nat (-1) 1%nat).
  - reflexivity.
  - reflexivity.
Defined.

Lemma for_each_len_unsized (msgs : list Message) (w : World) :
  Exists (fun m => content m = PyNone) msgs ->
  for_each (fun m => eval (py_len (content m))) msgs w = (Raises TypeError, w).
Proof.
  induction msgs as [|m msgs IH]; intros H.
  - apply Exists_nil in H. contradiction.
  - simpl. unfold bind, eval in *.
    destruct (content m) eqn:E; simpl.
    + reflexivity.
    + apply Exists_cons in H as [H|H]; [congruence|]. rewrite (IH H). reflexivity.
    + apply Exists_cons in H as [H|H]; [congruence|]. rewrite (IH H). reflexivity.
Qed.

(** X8: one message without content spoils the whole listing.  When some
    message has the constructor's default content [None],
    [listMessages()] raises [TypeError] and [listMessages(index)] does so
    at that message; the mailbox is left as it was. *)
Theorem listMessages_raises_without_content (w : World) :
  Exists (fun m => content m = PyNone) (messages w) ->
  listMessages None w = (Raises TypeError, w)
  /\ (forall i m, i < Z.of_nat (length (messages w)) ->
        getitem (messages w) i = Returns m -> content m = PyNone ->
        listMessages (Some i) w = (Raises TypeError, w)).
Proof.
  intros H. split.
  - rewrite listMessages_None_steps, (for_each_len_unsized _ w H). reflexivity.
  - intros i m Hi Hm Hc. rewrite (listMessages_in w i Hi), Hm, Hc. reflexivity.
Qed.

Lemma listMessages_raises_without_content_witness :
  listMessages None (running [abc; Message_init PyNone PyNone; hello])
  = (Raises TypeError, running [abc; Message_init PyNone PyNone; hello]).
Proof.
  apply (listMessages_raises_without_content
           (running [abc; Message_init PyNone PyNone; hello])).
  apply Exists_cons_tl, Exists_cons_hd. reflexivity.
Defined.

(** X9: [getMessage] never hands out a message.  At or past the count it
    raises [ValueError], at every other index [AttributeError], and the
    world stays as it was. *)
Theorem getMessage_never_returns (w : World) (i : Z) :
  getMessage i w
  = (Raises (if bool_decide (i >= Z.of_nat (length (messages w)))
             then ValueError else AttributeError), w).
Proof.
  case_bool_decide as H.
  - run. rewrite bool_decide_eq_true_2 by exact H. reflexivity.
  - apply getMessage_in. lia.
Qed.

(** X10: with a [bytes] content [getUidl] returns the digest of just that
    content: the flag, the label and the slot do not enter, so two
    messages that hold the same octets get the same UID. *)
Theorem getUidl_same_octets_same_uid
    (sha : bytes -> pystr) (w : World) (i j : Z) (m m' : Message) (b : bytes) :
  i < Z.of_nat (length (messages w)) ->
  j < Z.of_nat (length (messages w)) ->
  getitem (messages w) i = Returns m ->
  getitem (messages w) j = Returns m' ->
  content m = PyBytes b ->
  content m' = PyBytes b ->
  getUidl sha i w = (Returns (sha b), w)
  /\ getUidl sha j w = (Returns (sha b), w).
Proof.
  intros Hi Hj Hm Hm' Hb Hb'.
  rewrite (getUidl_in sha w i Hi), (getUidl_in sha w j Hj), Hm, Hm', Hb, Hb'.
  split; reflexivity.
Qed.

Lemma getUidl_same_octets_same_uid_witness :
  getUidl (fun b => map Byte.to_N b) 0
    (running [mkMessage (PyBytes [x68; x69]) PyNone true;
              mkMessage (PyBytes [x68; x69]) (PyStr (str_lit "copy")) false])
  = (Returns [104; 105]%N,
     running [mkMessage (PyBytes [x68; x69]) PyNone true;
              mkMessage (PyBytes [x68; x69]) (PyStr (str_lit "copy")) false])
  /\ getUidl (fun b => map Byte.to_N b) 1
       (running [mkMessage (PyBytes [x68; x69]) PyNone true;
                 mkMessage (PyBytes [x68; x69]) (PyStr (str_lit "copy")) false])
     = (Returns [104; 105]%N,
        running [mkMessage (PyBytes [x68; x69]) PyNone true;
                 mkMessage (PyBytes [x68; x69]) (PyStr (str_lit "copy")) false]).
Proof.
  apply (getUidl_same_octets_same_uid (fun b => map Byte.to_N b)
           (running [mkMessage (PyBytes [x68; x69]) PyNone true;
                     mkMessage (PyBytes [x68; x69]) (PyStr (str_lit "copy")) false])
           0 1
           (mkMessage (PyBytes [x68; x69]) PyNone true)
           (mkMessage (PyBytes [x68; x69]) (PyStr (str_lit "copy")) false)
           [x68; x69]).
  - cbn. lia.
  - cbn. lia.
  - reflexivity.
  - reflexivity.
  - reflexivity.
  - reflexivity.
Defined.

Lemma existsb_is_IMailbox_false (interfaces : list Interface) :
  IMailbox ∉ interfaces -> existsb is_IMailbox interfaces = false.
Proof.
  induction interfaces as [|x l IH]; intros H; [reflexivity|].
  apply not_elem_of_cons in H as [Hx Hl]. simpl. rewrite (IH Hl).
  destruct x; simpl; congruence.
Qed.

(** X11: [requestAvatar] refuses a login that does not ask for [IMailbox]:
    it raises [NotImplementedError] whoever asks, and the world stays as
    it was. *)
Theorem requestAvatar_refuses_other_interfaces
    (self : SimpleRealm) (avatarId : bytes) (mind : PyObj)
    (interfaces : list Interface) (w : World) :
  IMailbox ∉ interfaces ->
  requestAvatar self avatarId mind interfaces w = (Raises NotImplementedError, w).
Proof.
  intros H. unfold requestAvatar.
  rewrite (existsb_is_IMailbox_false interfaces H). reflexivity.
Qed.

Lemma requestAvatar_refuses_other_interfaces_witness :
  requestAvatar (mkSimpleRealm mailbox) [x75; x73; x65; x72] PyNone
    [IRealm; OtherInterface "IMessage"] (running [abc])
  = (Raises NotImplementedError, running [abc])
  /\ requestAvatar (mkSimpleRealm mailbox) [x75; x73; x65; x72] PyNone
       [] (running [abc])
     = (Raises NotImplementedError, running [abc]).
Proof.
  split.
  - apply (requestAvatar_refuses_other_interfaces
             (mkSimpleRealm mailbox) [x75; x73; x65; x72] PyNone
             [IRealm; OtherInterface "IMessage"] (running [abc])).
    intros H. apply elem_of_cons in H as [H|H]; [discriminate|].
    apply elem_of_cons in H as [H|H]; [discriminate|].
    apply elem_of_nil in H. exact H.
  - apply (requestAvatar_refuses_other_interfaces
             (mkSimpleRealm mailbox) [x75; x73; x65; x72] PyNone
             [] (running [abc])).
    apply not_elem_of_nil.
Defined.

(** * More of the trace *)

Lemma in_newline_return (c : N) :
  existsb (N.eqb c) newline_return = true <-> line_end c.
Proof.
  unfold newline_return, line_end. simpl.
  rewrite orb_false_r, orb_true_iff, !N.eqb_eq. reflexivity.
Qed.

Lemma lstrip_split (s : pystr) :
  exists a,
    s = a ++ lstrip newline_return s
    /\ Forall line_end a
    /\ (forall c, head (lstrip newline_return s) = Some c -> ~ line_end c).
Proof.
  induction s as [|c s IH].
  - exists []. repeat split; [constructor|]. intros c [=].
  - cbn [lstrip]. destruct (existsb (N.eqb c) newline_return) eqn:E.
    + destruct IH as (a & Hs & Ha & Hh).
      exists (c :: a). split; [|split].
      * simpl. f_equal. exact Hs.
      * constructor; [apply in_newline_return; exact E|exact Ha].
      * exact Hh.
    + exists []. split; [reflexivity|]. split; [constructor|].
      intros c' [= <-] Hc. apply in_newline_return in Hc. congruence.
Qed.

Lemma head_app_Some {A} (l1 l2 : list A) (x : A) :
  head l1 = Some x -> head (l1 ++ l2) = Some x.
Proof. destruct l1; [discriminate|]. simpl. auto. Qed.

Lemma last_rev {A} (l : list A) : last (rev l) = head l.
Proof. rewrite rev_alt. exact (last_reverse l). Qed.

Lemma strip_split (s : pystr) :
  exists a b,
    s = a ++ strip newline_return s ++ b
    /\ Forall line_end a
    /\ Forall line_end b
    /\ (forall c, head (strip newline_return s) = Some c -> ~ line_end c)
    /\ (forall c, last (strip newline_return s) = Some c -> ~ line_end c).
Proof.
  destruct (lstrip_split s) as (a & Hs & Ha & Hh).
  destruct (lstrip_split (rev (lstrip newline_return s))) as (b & Hr & Hb & Hl).
  assert (E : lstrip newline_return s = strip newline_return s ++ rev b).
  { unfold strip, rstrip. rewrite <- rev_app_distr, <- Hr, rev_involutive.
    reflexivity. }
  exists a, (rev b). split; [|split; [|split; [|split]]].
  - rewrite <- E. exact Hs.
  - exact Ha.
  - apply List.Forall_rev. exact Hb.
  - intros c Hc. apply Hh. rewrite E. apply head_app_Some. exact Hc.
  - intros c Hc. apply Hl. unfold strip, rstrip in Hc.
    rewrite last_rev in Hc. exact Hc.
Qed.

(** X12: the log entry of a line is the line without the run of CR and LF
    at its start and at its end, behind the direction mark: the decoded
    line is [a ++ t ++ b] with [a] and [b] made of CR and LF only and [t]
    neither starting nor ending with one, and the entry is the mark
    followed by [t], CR and LF inside [t] kept. *)
Theorem log_entry_trims_line_ends
    (utf8_decode : bytes -> option pystr) (line : bytes) (w : World)
    (s : pystr) (q : list Event) :
  utf8_decode line = Some s ->
  root w = Some q ->
  exists a t b,
    s = a ++ t ++ b
    /\ Forall line_end a
    /\ Forall line_end b
    /\ (forall c, head t = Some c -> ~ line_end c)
    /\ (forall c, last t = Some c -> ~ line_end c)
    /\ messagelog (incoming_line utf8_decode line w).2
       = messagelog w ++ [str_lit "C: " ++ t]
    /\ messagelog (outgoing_line utf8_decode line w).2
       = messagelog w ++ [str_lit "S: " ++ t].
Proof.
  intros Hs Hq. destruct (strip_split s) as (a & b & E & Ha & Hb & Hh & Hl).
  exists a, (strip newline_return s), b.
  rewrite incoming_line_steps, outgoing_line_steps, Hs, Hq.
  repeat split; assumption.
Qed.

Lemma log_entry_trims_line_ends_witness :
  exists a t b,
    [78; 79; 79; 80; 13; 10]%N = a ++ t ++ b
    /\ Forall line_end a
    /\ Forall line_end b
    /\ (forall c, head t = Some c -> ~ line_end c)
    /\ (forall c, last t = Some c -> ~ line_end c)
    /\ messagelog (incoming_line ascii_decode noop_line (running [abc])).2
       = [] ++ [str_lit "C: " ++ t]
    /\ messagelog (outgoing_line ascii_decode noop_line (running [abc])).2
       = [] ++ [str_lit "S: " ++ t].
Proof.
  apply (log_entry_trims_line_ends ascii_decode noop_line (running [abc])
           [78; 79; 79; 80; 13; 10]%N []).
  - reflexivity.
  - reflexivity.
Defined.

(** X13: a line that does not decode is neither logged nor passed on.
    [lineReceived] and [sendLine] raise [UnicodeDecodeError] with the log,
    the mailbox, the event queue and the session as they were, whatever
    the base class would have done with the line. *)
Theorem undecodable_line_is_dropped
    (utf8_decode : bytes -> option pystr) (Protocol : Type)
    (POP3_lineReceived POP3_sendLine : bytes -> M (Protocol * World) unit)
    (line : bytes) (p : Protocol) (w : World) :
  utf8_decode line = None ->
  lineReceived utf8_decode Protocol POP3_lineReceived line (p, w)
  = (Raises UnicodeDecodeError, (p, w))
  /\ sendLine utf8_decode Protocol POP3_sendLine line (p, w)
     = (Raises UnicodeDecodeError, (p, w)).
Proof.
  intros H. unfold lineReceived, sendLine, bind, on_snd. simpl.
  rewrite incoming_line_steps, outgoing_line_steps, H. split; reflexivity.
Qed.

Lemma undecodable_line_is_dropped_witness :
  lineReceived ascii_decode unit (fun _ => ret tt) [x52; xff]
    (tt, running [abc])
  = (Raises UnicodeDecodeError, (tt, running [abc]))
  /\ sendLine ascii_decode unit (fun _ => ret tt) [x52; xff]
       (tt, running [abc])
     = (Raises UnicodeDecodeError, (tt, running [abc])).
Proof.
  apply (undecodable_line_is_dropped ascii_decode unit
           (fun _ => ret tt) (fun _ => ret tt) [x52; xff] tt (running [abc])).
  reflexivity.
Defined.

(** X14: logging a line never touches the mailbox and only ever appends
    to the log: after [incoming_line] or [outgoing_line], returned or
    raised, the messages are the same and the log is the former log with
    at most one entry behind it.  With [root] unbound either function has
    put its entry in the log although the call raises. *)
Theorem logging_only_appends
    (utf8_decode : bytes -> option pystr) (line : bytes) (w : World) :
  messages (incoming_line utf8_decode line w).2 = messages w
  /\ messages (outgoing_line utf8_decode line w).2 = messages w
  /\ (exists added, messagelog (incoming_line utf8_decode line w).2
                    = messagelog w ++ added /\ (length added <= 1)%nat)
  /\ (exists added, messagelog (outgoing_line utf8_decode line w).2
                    = messagelog w ++ added /\ (length added <= 1)%nat)
  /\ (forall s, utf8_decode line = Some s -> root w = None ->
        incoming_line utf8_decode line w
        = (Raises AttributeError,
           set_messagelog
             (messagelog w ++ [str_lit "C: " ++ strip newline_return s]) w))
  /\ (forall s, utf8_decode line = Some s -> root w = None ->
        outgoing_line utf8_decode line w
        = (Raises AttributeError,
           set_messagelog
             (messagelog w ++ [str_lit "S: " ++ strip newline_return s]) w)).
Proof.
  rewrite incoming_line_steps, outgoing_line_steps.
  destruct (utf8_decode line) as [s|], (root w) as [q|]; simpl;
    repeat split;
    try (eexists; split; [reflexivity|simpl; lia]);
    try (exists []; split; [symmetry; apply app_nil_r|simpl; lia]);
    try (intros ? [= <-] _; reflexivity);
    try discriminate.
Qed.

Lemma logging_only_appends_witness :
  incoming_line ascii_decode noop_line
    {| root := None; messagelog := []; messages := [abc] |}
  = (Raises AttributeError,
     {| root := None;
        messagelog := [str_lit "C: NOOP"];
        messages := [abc] |})
  /\ outgoing_line ascii_decode noop_line
       {| root := None; messagelog := []; messages := [abc] |}
     = (Raises AttributeError,
        {| root := None;
           messagelog := [str_lit "S: NOOP"];
           messages := [abc] |}).
Proof.
  split.
  - apply (proj1 (proj2 (proj2 (proj2 (proj2
             (logging_only_appends ascii_decode noop_line
                {| root := None; messagelog := []; messages := [abc] |})))))
             [78; 79; 79; 80; 13; 10]%N).
    + reflexivity.
    + reflexivity.
  - apply (proj2 (proj2 (proj2 (proj2 (proj2
             (logging_only_appends ascii_decode noop_line
                {| root := None; messagelog := []; messages := [abc] |})))))
             [78; 79; 79; 80; 13; 10]%N).
    + reflexivity.
    + reflexivity.
Defined.

(** * The GUI *)

(** X15: what [label()] shows of a deletion.  A message without label,
    [None] or empty, has no label text flagged or not, so its deletion
    leaves no mark; a message with a non-empty [str] label shows it as it
    is while unflagged and with [" (deleted)"] behind it once flagged; a
    non-empty [bytes] label makes [label()] raise [TypeError]. *)
Theorem label_marks_deletion (m : Message) :
  (truth (_label m) = false ->
     label m = Returns None /\ label (delete m) = Returns None)
  /\ (forall c s, _label m = PyStr (c :: s) ->
        label (undelete m) = Returns (Some (c :: s))
        /\ label (delete m) = Returns (Some ((c :: s) ++ str_lit " (deleted)")))
  /\ (labelled_by_bytes m ->
        label m = Raises TypeError /\ label (delete m) = Raises TypeError).
Proof.
  destruct m as [c l d]. unfold label, labelled_by_bytes, delete, undelete, deleted.
  simpl. split; [|split].
  - intros H. rewrite H. rewrite andb_false_r. split; reflexivity.
  - intros x s ->. simpl. split; reflexivity.
  - intros (x & b & ->). simpl. split; reflexivity.
Qed.

Lemma label_marks_deletion_witness :
  label (undelete (mkMessage PyNone (PyStr (str_lit "a.eml")) true))
  = Returns (Some (str_lit "a.eml"))
  /\ label (delete (mkMessage PyNone (PyStr (str_lit "a.eml")) true))
     = Returns (Some (str_lit "a.eml (deleted)")).
Proof.
  apply (proj1 (proj2 (label_marks_deletion
           (mkMessage PyNone (PyStr (str_lit "a.eml")) true)))
           97%N (str_lit ".eml")).
  reflexivity.
Defined.

Lemma add_message_returns (g : GUI) (w : World) (q : list Event) :
  root w = Some q ->
  add_message (g, w)
  = (Returns tt,
     (set_message_generate_count (message_generate_count g + 1) g,
      {| root := Some (q ++ [EVENT_MAILBOXCHANGE]);
         messagelog := messagelog w;
         messages :=
           messages w
           ++ [Message_init
                 (PyStr (generated_text (message_generate_count g + 1))) PyNone] |})).
Proof.
  intros Hq. unfold add_message, bind, gets, modify, on_snd, on_gui. simpl.
  rewrite addMessage_steps, (emit_event_bound _ _ q) by exact Hq. reflexivity.
Qed.

(** X16: the button numbers its messages.  With [root] bound, [k] presses
    return, raise the counter by [k] and append [k] unflagged, unlabelled
    messages whose texts carry the numbers that follow the former counter,
    in order; one event is queued per press and nothing else changes. *)
Theorem presses_number_the_messages
    (k : nat) (g : GUI) (w : World) (q : list Event) :
  root w = Some q ->
  presses k (g, w)
  = (Returns tt,
     (set_message_generate_count (message_generate_count g + Z.of_nat k) g,
      {| root := Some (notified k q);
         messagelog := messagelog w;
         messages := messages w ++ generated_from (message_generate_count g) k |})).
Proof.
  revert g w q. induction k as [|k IH]; intros g w q Hq.
  - simpl. unfold ret, notified. simpl. rewrite Z.add_0_r, !app_nil_r.
    destruct g, w. simpl in *. subst. reflexivity.
  - cbn [presses]. unfold bind. rewrite (add_message_returns g w q Hq).
    rewrite (IH _ _ (q ++ [EVENT_MAILBOXCHANGE])) by reflexivity.
    unfold notified. simpl. rewrite <- !app_assoc. simpl.
    replace (message_generate_count g + 1 + Z.of_nat k)
      with (message_generate_count g + Z.pos (Pos.of_succ_nat k)) by lia.
    reflexivity.
Qed.

Lemma presses_number_the_messages_witness :
  presses 2 (GUI_init, running [abc])
  = (Returns tt,
     (set_message_generate_count 2 GUI_init,
      {| root := Some [EVENT_MAILBOXCHANGE; EVENT_MAILBOXCHANGE];
         messagelog := [];
         messages :=
           [abc; generated;
            Message_init (PyStr (generated_text 2)) PyNone] |})).
Proof.
  apply (presses_number_the_messages 2 GUI_init (running [abc]) []).
  reflexivity.
Defined.

Lemma str_lit_inj (s1 s2 : string) : str_lit s1 = str_lit s2 -> s1 = s2.
Proof.
  unfold str_lit. intros H.
  rewrite <- (string_of_list_ascii_of_string s1),
          <- (string_of_list_ascii_of_string s2).
  f_equal.
  revert H. generalize (list_ascii_of_string s1) (list_ascii_of_string s2).
  induction l as [|a l IH]; intros [|a' l'] H; try discriminate; [reflexivity|].
  simpl in H. injection H as Ha Hl. f_equal; [|exact (IH l' Hl)].
  rewrite <- (ascii_N_embedding a), <- (ascii_N_embedding a'), Ha. reflexivity.
Qed.

Lemma Z_to_int_proper (n : Z) :
  Z.to_int n <> Decimal.Pos Decimal.Nil /\ Z.to_int n <> Decimal.Neg Decimal.Nil.
Proof.
  destruct n as [|p|p]; simpl; split; try discriminate;
    intros [= H]; exact (DecimalPos.Unsigned.to_uint_nonnil p H).
Qed.

Lemma format_int_inj (n n' : Z) : format_int n = format_int n' -> n = n'.
Proof.
  unfold format_int. intros H. apply str_lit_inj in H.
  apply DecimalZ.to_int_inj.
  destruct (Z_to_int_proper n) as [H1 H2], (Z_to_int_proper n') as [H1' H2'].
  pose proof (DecimalString.NilZero.isi _ H1 H2) as E.
  pose proof (DecimalString.NilZero.isi _ H1' H2') as E'.
  rewrite H in E. rewrite E in E'. injection E' as E'. exact E'.
Qed.

(** X17: messages generated under different counter values have different
    texts, so no two presses of one session produce the same content. *)
Theorem generated_texts_differ (n n' : Z) :
  n <> n' -> generated_text n <> generated_text n'.
Proof.
  intros Hn H. apply Hn. unfold generated_text in H.
  repeat (apply app_inv_head in H).
  rewrite !app_assoc in H. apply app_inv_tail in H. apply app_inv_tail in H.
  exact (format_int_inj n n' H).
Qed.

Lemma generated_texts_differ_witness : generated_text 1 <> generated_text 10.
Proof. apply (generated_texts_differ 1 10). lia. Defined.

Lemma for_in_app {S A} (body : A -> M S unit) (l1 l2 : list A) (s : S) :
  for_in body (l1 ++ l2) s = (for_in body l1;;; for_in body l2) s.
Proof.
  revert s. induction l1 as [|x l1 IH]; intros s; simpl.
  - reflexivity.
  - unfold bind in *. destruct (body x s) as [[[]|e] s1]; [|reflexivity].
    rewrite IH. reflexivity.
Qed.

Lemma refresh_message_list_row_returns
    (g : GUI) (w : World) (idx : Z) (m : Message) (l : option pystr) :
  getitem (messages w) (idx - 1) = Returns m ->
  label m = Returns l ->
  refresh_message_list_row idx (g, w)
  = (Returns tt, (set_message_list (message_list g ++ [row_text idx l]) g, w)).
Proof.
  intros Hm Hl.
  unfold refresh_message_list_row, row_text, bind, gets, modify, eval, ret, on_gui.
  cbn [fst snd]. rewrite Hm, Hl.
  destruct (truth_label l); cbn [fst snd]; rewrite ?Hm, ?Hl; reflexivity.
Qed.

Lemma refresh_message_list_row_raises
    (g : GUI) (w : World) (idx : Z) (m : Message) (e : Exn) :
  getitem (messages w) (idx - 1) = Returns m ->
  label m = Raises e ->
  refresh_message_list_row idx (g, w) = (Raises e, (g, w)).
Proof.
  intros Hm Hl.
  unfold refresh_message_list_row, bind, gets, eval. cbn [fst snd].
  rewrite Hm, Hl. reflexivity.
Qed.

Lemma getitem_middle {A} (done rest : list A) (x : A) :
  getitem (done ++ x :: rest) (Z.of_nat (length done) + 1 - 1) = Returns x.
Proof.
  apply (getitem_position _ _ (length done)).
  - rewrite position_nonneg by (rewrite length_app; simpl; lia). f_equal. lia.
  - rewrite lookup_app_r by lia. rewrite Nat.sub_diag. reflexivity.
Qed.

Lemma set_message_list_twice (r1 r2 : list pystr) (g : GUI) :
  set_message_list r2 (set_message_list r1 g) = set_message_list r2 g.
Proof. reflexivity. Qed.

Lemma refresh_rows_good (w : World) (good : list Message) :
  forall (ls : list (option pystr)) (done rest : list Message) (g : GUI),
    messages w = done ++ good ++ rest ->
    Forall2 (fun m l => label m = Returns l) good ls ->
    for_in refresh_message_list_row
      (seqZ (Z.of_nat (length done) + 1) (Z.of_nat (length good))) (g, w)
    = (Returns tt,
       (set_message_list
          (message_list g ++ rows_from (Z.of_nat (length done) + 1) ls) g, w)).
Proof.
  induction good as [|m good IH]; intros ls done rest g Hw HF.
  - apply Forall2_nil_inv_l in HF as ->. simpl. unfold ret.
    rewrite app_nil_r. destruct g. reflexivity.
  - apply Forall2_cons_inv_l in HF as (l & ls' & Hl & HF & ->).
    rewrite seqZ_cons by (simpl; lia). cbn [for_in]. unfold bind.
    rewrite (refresh_message_list_row_returns g w _ m l).
    + replace (Z.succ (Z.of_nat (length done) + 1))
        with (Z.of_nat (length (done ++ [m])) + 1)
        by (rewrite length_app; simpl; lia).
      replace (Z.pred (Z.of_nat (length (m :: good))))
        with (Z.of_nat (length good)) by (simpl; lia).
      rewrite (IH ls' (done ++ [m]) rest).
      * simpl. rewrite <- app_assoc. simpl.
        replace (Z.of_nat (length (done ++ [m])) + 1)
          with (Z.of_nat (length done) + 1 + 1)
          by (rewrite length_app; simpl; lia).
        reflexivity.
      * rewrite Hw, <- app_assoc. reflexivity.
      * exact HF.
    + rewrite Hw. simpl. apply getitem_middle.
    + exact Hl.
Qed.

Lemma rows_from_lookup (idx : Z) (ls : list (option pystr)) k l :
  ls !! k = Some l ->
  rows_from idx ls !! k = Some (row_text (idx + Z.of_nat k) l).
Proof.
  revert idx k. induction ls as [|l0 ls IH]; intros idx [|k] H;
    try discriminate; simpl in *.
  - injection H as ->. rewrite Z.add_0_r. reflexivity.
  - rewrite (IH (idx + 1) k H). f_equal. f_equal. lia.
Qed.

Lemma rows_from_length (idx : Z) (ls : list (option pystr)) :
  length (rows_from idx ls) = length ls.
Proof. revert idx. induction ls as [|l ls IH]; intros idx; simpl; auto. Qed.

Lemma refresh_message_list_rows_aux
    (g : GUI) (w : World) (ls : list (option pystr)) :
  Forall2 (fun m l => label m = Returns l) (messages w) ls ->
  refresh_message_list (g, w)
  = (Returns tt, (set_message_list (rows_from 1 ls) g, w))
  /\ length (rows_from 1 ls) = length (messages w).
Proof.
  intros HF. split.
  - unfold refresh_message_list, bind, gets, modify, on_gui, range.
    cbn [fst snd].
    replace (Z.of_nat (length (messages w)) + 1 - 1)
      with (Z.of_nat (length (messages w))) by lia.
    exact (refresh_rows_good w (messages w) ls [] [] (set_message_list [] g)
             (eq_sym (app_nil_r _)) HF).
  - rewrite rows_from_length. symmetry. exact (Forall2_length _ _ _ HF).
Qed.

(** X18: the message list is rebuilt from the mailbox alone.  When every
    [label()] returns, [refresh_message_list] returns with one row per
    message, in mailbox order and numbered from 1, each built from the
    number and the label; the rows that were there before play no part,
    the world is left as it was, and a second refresh changes nothing. *)
Theorem refresh_message_list_rows
    (g : GUI) (w : World) (ls : list (option pystr)) :
  Forall2 (fun m l => label m = Returns l) (messages w) ls ->
  refresh_message_list (g, w)
  = (Returns tt, (set_message_list (rows_from 1 ls) g, w))
  /\ length (rows_from 1 ls) = length (messages w)
  /\ (forall k l, ls !! k = Some l ->
        rows_from 1 ls !! k = Some (row_text (1 + Z.of_nat k) l))
  /\ (refresh_message_list;;; refresh_message_list) (g, w)
     = refresh_message_list (g, w).
Proof.
  intros HF. destruct (refresh_message_list_rows_aux g w ls HF) as [Hr Hlen].
  split; [exact Hr|]. split; [exact Hlen|]. split.
  - intros k l. apply rows_from_lookup.
  - unfold bind. rewrite Hr.
    destruct (refresh_message_list_rows_aux
                (set_message_list (rows_from 1 ls) g) w ls HF) as [Hr' _].
    rewrite Hr'. reflexivity.
Qed.

Lemma refresh_message_list_rows_witness :
  refresh_message_list
    (set_message_list [str_lit "stale"] GUI_init,
     running [abc; mkMessage PyNone (PyStr (str_lit "a.eml")) true; delete hello])
  = (Returns tt,
     (set_message_list
        [str_lit "Message 1"; str_lit "Message 2: a.eml (deleted)";
         str_lit "Message 3"] GUI_init,
      running [abc; mkMessage PyNone (PyStr (str_lit "a.eml")) true; delete hello])).
Proof.
  apply (refresh_message_list_rows
           (set_message_list [str_lit "stale"] GUI_init)
           (running [abc; mkMessage PyNone (PyStr (str_lit "a.eml")) true;
                     delete hello])
           [None; Some (str_lit "a.eml (deleted)"); None]).
  repeat constructor.
Defined.

Lemma label_bytes_raises (m : Message) :
  labelled_by_bytes m -> label m = Raises TypeError.
Proof.
  intros (x & b & H). unfold label. rewrite H. reflexivity.
Qed.

(** X19: a label of the wrong type stops the refresh half way.  When the
    labels before a message with a non-empty [bytes] label all return,
    [refresh_message_list] raises [TypeError] and the listbox holds the
    rows of the messages before that one only. *)
Theorem refresh_message_list_stops_at_bytes_label
    (g : GUI) (w : World) (good rest : list Message) (bad : Message)
    (ls : list (option pystr)) :
  messages w = good ++ bad :: rest ->
  Forall2 (fun m l => label m = Returns l) good ls ->
  labelled_by_bytes bad ->
  refresh_message_list (g, w)
  = (Raises TypeError, (set_message_list (rows_from 1 ls) g, w)).
Proof.
  intros Hw HF Hb.
  unfold refresh_message_list, bind, gets, modify, on_gui, range.
  cbn [fst snd].
  replace (Z.of_nat (length (messages w)) + 1 - 1)
    with (Z.of_nat (length good) + Z.of_nat (S (length rest)))
    by (rewrite Hw, length_app; simpl; lia).
  rewrite seqZ_app by lia. rewrite for_in_app. unfold bind.
  pose proof (refresh_rows_good w good ls [] (bad :: rest)
                (set_message_list [] g) Hw HF) as E.
  change (Z.of_nat (length (@nil Message)) + 1) with 1 in E.
  rewrite E. clear E.
  rewrite seqZ_cons by lia. cbn [for_in]. unfold bind.
  rewrite (refresh_message_list_row_raises _ w _ bad TypeError).
  - reflexivity.
  - rewrite Hw.
    replace (1 + Z.of_nat (length good) - 1)
      with (Z.of_nat (length good) + 1 - 1) by lia.
    apply getitem_middle.
  - apply label_bytes_raises. exact Hb.
Qed.

Lemma refresh_message_list_stops_at_bytes_label_witness :
  refresh_message_list
    (set_message_list [str_lit "stale"] GUI_init,
     running [abc; mkMessage PyNone (PyBytes [x61]) false; hello])
  = (Raises TypeError,
     (set_message_list [str_lit "Message 1"] GUI_init,
      running [abc; mkMessage PyNone (PyBytes [x61]) false; hello])).
Proof.
  apply (refresh_message_list_stops_at_bytes_label
           (set_message_list [str_lit "stale"] GUI_init)
           (running [abc; mkMessage PyNone (PyBytes [x61]) false; hello])
           [abc] [hello] (mkMessage PyNone (PyBytes [x61]) false) [None]).
  - reflexivity.
  - repeat constructor.
  - exists x61, []. reflexivity.
Defined.

Lemma set_message_log_content_twice (t1 t2 : pystr) (g : GUI) :
  set_message_log_content t2 (set_message_log_content t1 g)
  = set_message_log_content t2 g.
Proof. reflexivity. Qed.

Lemma refresh_log_loop (w : World) (log : list pystr) :
  forall g : GUI,
    for_in (fun message =>
              text <- gets (fun s : GUI * World => message_log_content s.1);;
              modify (on_gui (set_message_log_content (text ++ message)));;;
              text <- gets (fun s : GUI * World => message_log_content s.1);;
              modify (on_gui (set_message_log_content (text ++ [10%N]))))
           log (g, w)
    = (Returns tt,
       (set_message_log_content (message_log_content g ++ log_text log) g, w)).
Proof.
  induction log as [|entry log IH]; intros g.
  - simpl. unfold ret, log_text. simpl. rewrite app_nil_r. destruct g. reflexivity.
  - cbn [for_in]. unfold bind at 1. unfold bind at 1 2 3, gets, modify, on_gui.
    cbn [fst snd].
    rewrite IH. unfold log_text. simpl.
    rewrite <- !app_assoc. reflexivity.
Qed.

Lemma refresh_message_log_content_shows_log_aux (g : GUI) (w : World) :
  refresh_message_log_content (g, w)
  = (Returns tt, (set_message_log_content (log_text (messagelog w)) g, w)).
Proof.
  unfold refresh_message_log_content. unfold bind at 1 2, gets, modify, on_gui.
  cbn [fst snd].
  exact (refresh_log_loop w (messagelog w) (set_message_log_content [] g)).
Qed.

(** X20: the log view is rebuilt from the log alone.
    [refresh_message_log_content] always returns, shows every log entry
    followed by a newline, in order, whatever the view held before, and
    leaves the world as it was; a second refresh changes nothing. *)
Theorem refresh_message_log_content_shows_log (g : GUI) (w : World) :
  refresh_message_log_content (g, w)
  = (Returns tt, (set_message_log_content (log_text (messagelog w)) g, w))
  /\ (refresh_message_log_content;;; refresh_message_log_content) (g, w)
     = refresh_message_log_content (g, w).
Proof.
  split.
  - apply refresh_message_log_content_shows_log_aux.
  - unfold bind. rewrite !refresh_message_log_content_shows_log_aux.
    reflexivity.
Qed.

Lemma log_text_snoc (log : list pystr) (entry : pystr) :
  log_text (log ++ [entry]) = log_text log ++ entry ++ [10%N].
Proof.
  unfold log_text. rewrite map_app, concat_app. simpl.
  rewrite app_nil_r. reflexivity.
Qed.

(** X21: a received line reaches the log view.  Once [incoming_line] has
    logged a line, the handler bound to the event it queued shows the
    former log text followed by the new entry and a newline. *)
Theorem log_view_follows_line
    (utf8_decode : bytes -> option pystr) (line : bytes)
    (g : GUI) (w : World) (s : pystr) (q : list Event) :
  utf8_decode line = Some s ->
  root w = Some q ->
  exists w1,
    incoming_line utf8_decode line w = (Returns tt, w1)
    /\ root w1 = Some (q ++ [EVENT_MESSAGELOGCHANGE])
    /\ bound_handler EVENT_MESSAGELOGCHANGE (g, w1)
       = (Returns tt,
          (set_message_log_content
             (log_text (messagelog w)
              ++ (str_lit "C: " ++ strip newline_return s) ++ [10%N]) g,
           w1)).
Proof.
  intros Hs Hq. exists (logged "C: " s q w).
  rewrite incoming_line_steps, Hs, Hq.
  split; [reflexivity|]. split; [reflexivity|].
  unfold bound_handler. rewrite refresh_message_log_content_shows_log_aux.
  unfold logged. cbn [messagelog]. rewrite log_text_snoc. reflexivity.
Qed.

Lemma log_view_follows_line_witness :
  exists w1,
    incoming_line ascii_decode noop_line (running [abc]) = (Returns tt, w1)
    /\ root w1 = Some [EVENT_MESSAGELOGCHANGE]
    /\ bound_handler EVENT_MESSAGELOGCHANGE (GUI_init, w1)
       = (Returns tt,
          (set_message_log_content (str_lit "C: NOOP" ++ [10%N]) GUI_init, w1)).
Proof.
  apply (log_view_follows_line ascii_decode noop_line GUI_init (running [abc])
           [78; 79; 79; 80; 13; 10]%N []).
  - reflexivity.
  - reflexivity.
Defined.

Lemma label_returns (m : Message) :
  ~ labelled_by_bytes m -> exists l, label m = Returns l.
Proof.
  intros H. unfold label, labelled_by_bytes in *.
  destruct (_label m) as [|[|c s]|[|x b]]; simpl.
  - destruct (deleted m); simpl; eauto.
  - destruct (deleted m); simpl; eauto.
  - destruct (deleted m); simpl; eauto.
  - destruct (deleted m); simpl; eauto.
  - exfalso. apply H. eauto.
Qed.

Lemma labels_return (msgs : list Message) :
  Forall (fun m => ~ labelled_by_bytes m) msgs ->
  exists ls, Forall2 (fun m l => label m = Returns l) msgs ls.
Proof.
  induction 1 as [|m msgs Hm _ (ls & IH)].
  - exists []. constructor.
  - destruct (label_returns m Hm) as [l Hl]. exists (l :: ls).
    constructor; assumption.
Qed.

(** X22: how a staged deletion shows in the message list.  With [root]
    bound and no [bytes] label in the mailbox, [deleteMessage(index)]
    followed by the handler of the event it queued returns with one row
    per message; the row of the staged message carries its label with
    [" (deleted)"] behind it when it has a [str] label, and is the bare
    ["Message n"] when it has none, as for a message that is not staged. *)
Theorem staged_deletion_in_message_list
    (g : GUI) (w : World) (i : Z) (k : nat) (m : Message) (q : list Event) :
  root w = Some q ->
  Forall (fun m => ~ labelled_by_bytes m) (messages w) ->
  position (length (messages w)) i = Some k ->
  messages w !! k = Some m ->
  exists g' w',
    (on_snd (deleteMessage i);;; bound_handler EVENT_MAILBOXCHANGE) (g, w)
    = (Returns tt, (g', w'))
    /\ length (message_list g') = length (messages w)
    /\ (forall c s, _label m = PyStr (c :: s) ->
          message_list g' !! k
          = Some (str_lit "Message " ++ format_int (Z.of_nat k + 1)
                  ++ str_lit ": " ++ (c :: s) ++ str_lit " (deleted)"))
    /\ (truth (_label m) = false ->
          message_list g' !! k
          = Some (str_lit "Message " ++ format_int (Z.of_nat k + 1))).
Proof.
  intros Hq Hall Hk Hm.
  assert (Hlt : (k < length (messages w))%nat) by (eapply lookup_lt_Some; exact Hm).
  set (msgs' := <[k := delete m]> (messages w)).
  set (w' := set_root (q ++ [EVENT_MAILBOXCHANGE]) (set_messages msgs' w)).
  assert (Hall' : Forall (fun m => ~ labelled_by_bytes m) msgs').
  { apply Forall_insert; [exact Hall|].
    rewrite Forall_forall in Hall.
    apply (Hall m). apply list_elem_of_lookup. eauto. }
  destruct (labels_return msgs' Hall') as [ls HF].
  destruct (refresh_message_list_rows_aux g w' ls HF) as [Hr Hlen].
  assert (Hk' : msgs' !! k = Some (delete m))
    by (apply list_lookup_insert_eq; exact Hlt).
  destruct (Forall2_lookup_l _ _ _ _ _ HF Hk') as (l & Hl & Hlab).
  exists (set_message_list (rows_from 1 ls) g), w'.
  split; [|split; [|split]].
  - unfold bind, on_snd. cbn [fst snd].
    rewrite (deleteMessage_returns w i k m q Hk Hm Hq).
    unfold bound_handler. exact Hr.
  - cbn [message_list set_message_list]. rewrite Hlen.
    unfold w', msgs'. cbn [messages set_root set_messages].
    apply length_insert.
  - intros c s Hc. cbn [message_list set_message_list].
    refine (eq_trans (rows_from_lookup 1 ls k l Hl) _). f_equal.
    assert (E : label (delete m)
                = Returns (Some ((c :: s) ++ str_lit " (deleted)"))).
    { unfold label, delete, deleted. cbn [_label _deleted]. rewrite Hc.
      reflexivity. }
    rewrite E in Hlab. injection Hlab as <-.
    unfold row_text. cbn [truth_label app format_label].
    replace (1 + Z.of_nat k) with (Z.of_nat k + 1) by lia. reflexivity.
  - intros Hc. cbn [message_list set_message_list].
    refine (eq_trans (rows_from_lookup 1 ls k l Hl) _). f_equal.
    assert (E : label (delete m) = Returns None).
    { unfold label, delete, deleted. cbn [_label _deleted]. rewrite Hc.
      reflexivity. }
    rewrite E in Hlab. injection Hlab as <-.
    unfold row_text. cbn [truth_label].
    replace (1 + Z.of_nat k) with (Z.of_nat k + 1) by lia. reflexivity.
Qed.

Lemma staged_deletion_in_message_list_witness :
  exists g' w',
    (on_snd (deleteMessage 1);;; bound_handler EVENT_MAILBOXCHANGE)
      (GUI_init,
       running [abc; mkMessage PyNone (PyStr (str_lit "a.eml")) false])
    = (Returns tt, (g', w'))
    /\ length (message_list g') = 2%nat
    /\ (forall c s, PyStr (str_lit "a.eml") = PyStr (c :: s) ->
          message_list g' !! 1%nat
          = Some (str_lit "Message " ++ format_int (Z.of_nat 1 + 1)
                  ++ str_lit ": " ++ (c :: s) ++ str_lit " (deleted)"))
    /\ (truth (PyStr (str_lit "a.eml")) = false ->
          message_list g' !! 1%nat
          = Some (str_lit "Message " ++ format_int (Z.of_nat 1 + 1))).
Proof.
  apply (staged_deletion_in_message_list GUI_init
           (running [abc; mkMessage PyNone (PyStr (str_lit "a.eml")) false])
           1 1%nat (mkMessage PyNone (PyStr (str_lit "a.eml")) false) []).
  - reflexivity.
  - repeat constructor; intros (x & b & H); discriminate H.
  - reflexivity.
  - reflexivity.
Defined.

(** * Withdrawing every staged deletion *)

Lemma undelete_all_loop (rest : list Message) :
  forall (done : list Message) (w : World) (q : list Event),
    root w = Some q ->
    messages w = done ++ rest ->
    for_in undeleteMessages
      (seqZ (Z.of_nat (length done)) (Z.of_nat (length rest))) w
    = (Returns tt,
       {| root := Some (notified (length rest) q);
          messagelog := messagelog w;
          messages := done ++ map undelete rest |}).
Proof.
  induction rest as [|m rest IH]; intros done w q Hq Hw.
  - simpl. unfold ret, notified. simpl. rewrite !app_nil_r in *.
    destruct w. simpl in *. subst. reflexivity.
  - rewrite seqZ_cons by (simpl; lia). cbn [for_in]. unfold bind.
    assert (Hk : position (length (messages w)) (Z.of_nat (length done))
                 = Some (length done)).
    { rewrite position_nonneg by (rewrite Hw, length_app; simpl; lia).
      f_equal. lia. }
    assert (Hm : messages w !! length done = Some m).
    { rewrite Hw, lookup_app_r by lia. rewrite Nat.sub_diag. reflexivity. }
    rewrite (undeleteMessages_returns w _ _ m q Hk Hm Hq).
    replace (Z.succ (Z.of_nat (length done)))
      with (Z.of_nat (length (done ++ [undelete m])))
      by (rewrite length_app; simpl; lia).
    replace (Z.pred (Z.of_nat (length (m :: rest))))
      with (Z.of_nat (length rest)) by (simpl; lia).
    rewrite (IH (done ++ [undelete m]) _ (q ++ [EVENT_MAILBOXCHANGE])).
    + unfold notified. simpl. rewrite <- !app_assoc. reflexivity.
    + reflexivity.
    + simpl. rewrite Hw, insert_app_r_alt by lia.
      rewrite Nat.sub_diag, <- app_assoc. reflexivity.
Qed.

(** X23: withdrawing every staged deletion takes one call per index.
    With [root] bound, [undeleteMessages(index)] for every index from 0 up
    to the count returns each time and leaves every message unflagged with
    its content and label as they were, in the same slots; one event is
    queued per call. *)
Theorem undelete_every_index_clears_all_flags (w : World) (q : list Event) :
  root w = Some q ->
  for_in undeleteMessages (range 0 (Z.of_nat (length (messages w)))) w
  = (Returns tt,
     {| root := Some (notified (length (messages w)) q);
        messagelog := messagelog w;
        messages := map undelete (messages w) |})
  /\ Forall unflagged (map undelete (messages w))
  /\ map content (map undelete (messages w)) = contents w.
Proof.
  intros Hq. split; [|split].
  - unfold range. rewrite Z.sub_0_r.
    exact (undelete_all_loop (messages w) [] w q Hq eq_refl).
  - apply Forall_forall. intros m Hm.
    apply list_elem_of_fmap in Hm as (m0 & -> & _). reflexivity.
  - unfold contents. rewrite <- list_fmap_compose. reflexivity.
Qed.

Lemma undelete_every_index_clears_all_flags_witness :
  for_in undeleteMessages (range 0 2) (running [delete abc; delete hello])
  = (Returns tt,
     {| root := Some [EVENT_MAILBOXCHANGE; EVENT_MAILBOXCHANGE];
        messagelog := [];
        messages := [abc; hello] |})
  /\ Forall unflagged [abc; hello]
  /\ map content [abc; hello] = contents (running [delete abc; delete hello]).
Proof.
  apply (undelete_every_index_clears_all_flags
           (running [delete abc; delete hello]) []).
  reflexivity.
Defined.
